(** * Loan-approval workflow (app1.py): verification, underwriting, orchestration

    A shallow embedding of the decision engine [underwriting_agent], the
    verification gate [verification_agent] and the orchestration
    [start_simulation] of app1.py, with the fragment of the Python runtime
    they rely on: unbounded integers, IEEE-754 binary64 floats, the exact
    mixed int/float comparisons, arithmetic exceptions, dicts and f-strings.
    The functions come twice: as the code on ids that SQLite binds and on
    ints that Python prints, and, named [_call], with these two limits of
    the runtime in place. *)

From Stdlib Require Import ZArith String Ascii List Floats Lia Bool.
From stdpp Require Import base option list gmap strings pretty sorting.

Set Warnings "-inexact-float,-register-all".

Local Open Scope string_scope.
Local Open Scope Z_scope.
Local Open Scope list_scope.

(** ** The Python fragment *)

Module Py.

(** Exceptions the modelled code can raise. *)
Inductive pyexn : Set :=
  | OverflowError
  | ZeroDivisionError
  | AttributeError
  | KeyError
  | TypeError
  | ValueError.

(** The outcome of evaluating a Python expression or call. *)
Inductive result (A : Type) : Type :=
  | Return (a : A)
  | Raise (e : pyexn).
Arguments Return {A} a.
Arguments Raise {A} e.

#[export] Instance result_ret : MRet result := @Return.
#[export] Instance result_bind : MBind result :=
  λ A B f m, match m with Return a => f a | Raise e => Raise e end.

(** A Python number as the engine meets it: an [int] (unbounded) or a
    [float] (binary64). *)
Inductive pynum : Set :=
  | PyInt (z : Z)
  | PyFloat (f : float).

(** Values stored in the dicts the agents return. *)
Inductive pyval : Type :=
  | VStr (s : string)
  | VInt (z : Z)
  | VFloat (f : float)
  | VBool (b : bool).

(** Truth value of an object, as [if x:] and [x.get(k)] tests use it. *)
Definition truthy (v : pyval) : bool :=
  match v with
  | VStr s => negb (String.eqb s "")
  | VInt z => negb (z =? 0)
  | VFloat f => negb (PrimFloat.eqb f 0%float)
  | VBool b => b
  end.

(** [v == s] for a string literal [s]. *)
Definition eq_str (v : pyval) (s : string) : bool :=
  match v with
  | VStr s' => String.eqb s' s
  | _ => false
  end.

(** [d[k]]: subscripting raises [KeyError] on a missing key. *)
Definition getitem (d : gmap string pyval) (k : string) : result pyval :=
  match d !! k with
  | Some v => Return v
  | None => Raise KeyError
  end.

(** *** int -> float *)

(** The least magnitude that no longer rounds to a finite binary64:
    halfway between the largest finite double and [2^1024]. *)
Definition DBL_OVERFLOW : Z := 2 ^ 1024 - 2 ^ 970.

(** Correctly rounded (nearest, ties to even) conversion of an integer. *)
Definition round_int (z : Z) : float :=
  SF2Prim (binary_normalize prec emax z 0 false).

(** [float(z)] as the arithmetic operators apply it to an [int] operand:
    [OverflowError: int too large to convert to float] when the rounded
    value is not finite. *)
Definition float_of_int (z : Z) : result float :=
  if Z.abs z <? DBL_OVERFLOW then Return (round_int z) else Raise OverflowError.

Definition as_float (x : pynum) : result float :=
  match x with
  | PyInt z => float_of_int z
  | PyFloat f => Return f
  end.

(** [x * y] with a float right operand: an [int] left operand is converted
    first; the product itself never raises (it overflows to [inf]). *)
Definition num_mul_float (x : pynum) (y : float) : result float :=
  a ← as_float x; Return (PrimFloat.mul a y).

(** [a / n] with a float dividend and an [int] divisor: the divisor is
    converted, and a zero divisor raises (the converted divisor is [0.0]
    exactly when [n] is [0]). *)
Definition float_div_int (a : float) (n : Z) : result float :=
  b ← float_of_int n;
  if n =? 0 then Raise ZeroDivisionError
  else Return (PrimFloat.div a b).

(** *** Comparisons *)

(** Python compares a float with an int exactly, without converting the
    int: the float is [(-1)^s * m * 2^e], infinite or NaN (unordered). *)
Definition float_compare_int (f : float) (z : Z) : option comparison :=
  match Prim2SF f with
  | S754_nan => None
  | S754_infinity s => Some (if s then Lt else Gt)
  | S754_zero _ => Some (0 ?= z)
  | S754_finite s m e =>
      match e with
      | Zneg p => Some (cond_Zopp s (Zpos m) ?= z * 2 ^ Zpos p)
      | _ => Some (cond_Zopp s (Zpos m) * 2 ^ e ?= z)
      end
  end.

Definition num_compare (x : pynum) (z : Z) : option comparison :=
  match x with
  | PyInt a => Some (a ?= z)
  | PyFloat f => float_compare_int f z
  end.

(** [x > z] *)
Definition num_gt (x : pynum) (z : Z) : bool :=
  match num_compare x z with Some Gt => true | _ => false end.

(** [x <= z] *)
Definition num_le (x : pynum) (z : Z) : bool :=
  match num_compare x z with Some Lt | Some Eq => true | _ => false end.

(** [z < x]: with [x] on the right the comparison is answered by the
    reflected [x > z]. *)
Definition int_lt_num (z : Z) (x : pynum) : bool := num_gt x z.

(** *** Formatting *)

(** [str(z)], also [f"{z}"]: the decimal digits. Python prints an int of at
    most 4300 digits; [fstring_int] below has the limit. *)
Definition str_int (z : Z) : string := pretty z.

(** Insert a comma before every group of three digits, counting from the
    right; [n] is the number of characters after the current one. *)
Fixpoint group3 (s : string) : string :=
  match s with
  | EmptyString => EmptyString
  | String c rest =>
      let n := String.length rest in
      if (0 <? n)%nat && (n mod 3 =? 0)%nat
      then String c (String "," (group3 rest))
      else String c (group3 rest)
  end.

(** [f"{z:,}"] for an int: the digits in groups of three. The limit of 4300
    digits is in [fstring_int_comma] below. *)
Definition format_int_comma (z : Z) : string :=
  match z with
  | Zneg p => "-" +:+ group3 (pretty (Zpos p))
  | _ => group3 (pretty z)
  end.

End Py.
Import Py.

(** ** The customer store *)

(** One row of the [customers] table (without its [created_at] stamp);
    the primary key [id] is the key of the table. *)
Record customer_row : Set := CustomerRow {
  row_name : string;
  row_phone : string;
  row_address : string;
  row_credit_score : Z;
  row_pre_approved_limit : Z;
  row_monthly_salary : Z
}.

Abbreviation database := (gmap Z customer_row).

(** The dict [get_customer_by_id] builds from a row. *)
Record kyc : Set := Kyc {
  phone : string;
  address : string
}.

Record customer : Set := Customer {
  id : Z;
  name : string;
  kyc_details : kyc;
  credit_score : Z;
  pre_approved_limit : Z;
  monthly_salary : Z
}.

(** The three rows [init_db] inserts into an empty table. *)
Definition default_customers : database :=
  {[ 1 := CustomerRow "Rajesh Kumar" "+91-9876543210"
            "123 MG Road, Bangalore, Karnataka - 560001" 750 500000 80000;
     2 := CustomerRow "Priya Sharma" "+91-9123456789"
            "456 Park Street, Kolkata, West Bengal - 700016" 650 200000 50000;
     3 := CustomerRow "Amit Patel" "+91-9988776655"
            "789 Marine Drive, Mumbai, Maharashtra - 400020" 720 300000 120000 ]}.

(** [SELECT ... FROM customers WHERE id = ?] for an id that is bound to the
    statement, then the dict or [None]. Binding the id can fail:
    [get_customer_by_id_call] below has it. *)
Definition get_customer_by_id (db : database) (customer_id : Z) : option customer :=
  match db !! customer_id with
  | Some row =>
      Some {| id := customer_id;
              name := row_name row;
              kyc_details := {| phone := row_phone row; address := row_address row |};
              credit_score := row_credit_score row;
              pre_approved_limit := row_pre_approved_limit row;
              monthly_salary := row_monthly_salary row |}
  | None => None
  end.

(** ** The agents *)

(** What [verification_agent] returns: the dict tagged ["status": "error"]
    with its [message], or the one tagged ["status": "success"] with the
    [name] and the [kyc_details] dict. *)
Inductive verification_result : Set :=
  | VerificationError (message : string)
  | VerificationSuccess (name : string) (kyc_details : kyc).

Definition verification_agent (db : database) (customer_id : Z) : verification_result :=
  match get_customer_by_id db customer_id with
  | None => VerificationError "Customer not found"
  | Some customer => VerificationSuccess (name customer) (kyc_details customer)
  end.

(** Default of [tenure_months]. *)
Definition default_tenure_months : Z := 60.

Section Agents.

(** [format(x, spec)] for a float [x]: the runtime's float formatting, used
    with the specs [","] and [",.2f"]. *)
Variable format_float : string -> float -> string.

(** [f"{x:,}"] *)
Definition format_num_comma (x : pynum) : string :=
  match x with
  | PyInt z => format_int_comma z
  | PyFloat f => format_float "," f
  end.

(** [f"{v}"] *)
Definition str_val (v : pyval) : string :=
  match v with
  | VStr s => s
  | VInt z => str_int z
  | VFloat f => format_float "" f
  | VBool b => if b then "True" else "False"
  end.

(** The body of the stretch-tier branch of [underwriting_agent]: the EMI
    of the flat 12% surcharge against half the monthly salary. *)
Definition stretch_tier (monthly_salary : Z) (loan_amount : pynum) (tenure_months : Z)
    : result (option (gmap string pyval)) :=
  total_amount ← num_mul_float loan_amount 1.12;
  emi ← float_div_int total_amount tenure_months;
  max_emi ← num_mul_float (PyInt monthly_salary) 0.5;
  if PrimFloat.leb emi max_emi then
    Return (Some {[
      "status" := VStr "approved";
      "reason" := VStr ("Salary verification passed. EMI (Rs" +:+ format_float ",.2f" emi +:+
                        ") is within 50% of monthly salary (Rs" +:+
                        format_int_comma monthly_salary +:+ ")");
      "interest_rate" := VFloat 12.0;
      "tenure_months" := VInt tenure_months;
      "emi" := VFloat emi;
      "salary_verification_required" := VBool true ]})
  else
    Return (Some {[
      "status" := VStr "rejected";
      "reason" := VStr ("EMI (Rs" +:+ format_float ",.2f" emi +:+
                        ") exceeds 50% of monthly salary (Rs" +:+
                        format_float ",.2f" max_emi +:+ ")") ]}).

Definition underwriting_agent (db : database) (customer_id : Z)
    (loan_amount : pynum) (tenure_months : Z) : result (option (gmap string pyval)) :=
  match get_customer_by_id db customer_id with
  | None =>
      Return (Some {[ "status" := VStr "error"; "reason" := VStr "Customer not found" ]})
  | Some customer =>
      let credit_score := credit_score customer in
      let pre_approved_limit := pre_approved_limit customer in
      let monthly_salary := monthly_salary customer in
      if credit_score <? 700 then
        Return (Some {[
          "status" := VStr "rejected";
          "reason" := VStr ("Credit score (" +:+ str_int credit_score +:+ ") is below the minimum requirement of 700") ]})
      else if num_gt loan_amount (2 * pre_approved_limit) then
        Return (Some {[
          "status" := VStr "rejected";
          "reason" := VStr ("Requested loan amount (Rs" +:+ format_num_comma loan_amount +:+
                            ") exceeds 2x the pre-approved limit (Rs" +:+
                            format_int_comma (2 * pre_approved_limit) +:+ ")") ]})
      else if num_le loan_amount pre_approved_limit then
        Return (Some {[
          "status" := VStr "approved";
          "reason" := VStr ("Loan amount (Rs" +:+ format_num_comma loan_amount +:+
                            ") is within pre-approved limit (Rs" +:+
                            format_int_comma pre_approved_limit +:+ ")");
          "interest_rate" := VFloat 10.5;
          "tenure_months" := VInt tenure_months ]})
      else if int_lt_num pre_approved_limit loan_amount
              && num_le loan_amount (2 * pre_approved_limit) then
        stretch_tier monthly_salary loan_amount tenure_months
      else Return None
  end.

(** ** Orchestration *)

(** [sanction_letter_generator(customer_id, loan_amount, interest_rate,
    tenure_months, approval_status)]: the PDF collaborator. It answers with
    the name of the file it wrote, or [None] after any failure (it catches
    every exception itself). *)
Variable sanction_letter_generator : Z -> float -> pyval -> pyval -> string -> option string.

(** The body of [start_simulation], over the call
    [underwriting_agent(customer_id, loan_amount)] it makes; [loan_amount]
    is the float [float(data.get('loan_amount', 0))], and the value is the
    list sent back under ["log"]. *)
Definition start_simulation_with
    (underwriting : Z -> pynum -> result (option (gmap string pyval)))
    (db : database) (customer_id : Z) (loan_amount : float) : result (list string) :=
  let log : list string := [] in
  let log := log ++ ["ü§ñ Master Agent: Hello! Welcome to Tata Capital AI Loan Processing System."] in
  let log := log ++ ["ü§ñ Master Agent: Processing loan application for Customer ID: " +:+ str_int customer_id] in
  let log := log ++ ["ü§ñ Master Agent: Requested Loan Amount: Rs" +:+ format_float "," loan_amount] in
  let log := log ++ ["---"] in
  let log := log ++ ["üîç Master Agent: Initiating KYC verification..."] in
  match verification_agent db customer_id with
  | VerificationError message =>
      let log := log ++ ["‚ùå Verification Agent: " +:+ message] in
      Return log
  | VerificationSuccess name kyc_details =>
      let log := log ++ ["‚úÖ Verification Agent: KYC verification successful!"] in
      let log := log ++ ["üìã Verification Agent: Customer Name - " +:+ name] in
      let log := log ++ ["üìã Verification Agent: Phone - " +:+ phone kyc_details] in
      let log := log ++ ["üìã Verification Agent: Address - " +:+ address kyc_details] in
      let log := log ++ ["---"] in
      let log := log ++ ["üìä Master Agent: Forwarding to Underwriting Agent for credit assessment..."] in
      underwriting_result ← underwriting customer_id (PyFloat loan_amount);
      match get_customer_by_id db customer_id with
      | None => Raise TypeError
      | Some customer =>
          let log := log ++ ["üí≥ Underwriting Agent: Credit Score - " +:+ str_int (credit_score customer)] in
          let log := log ++ ["üí∞ Underwriting Agent: Pre-approved Limit - Rs" +:+ format_int_comma (pre_approved_limit customer)] in
          match underwriting_result with
          | None => Raise AttributeError
          | Some underwriting_result =>
              let log :=
                if from_option truthy false (underwriting_result !! "salary_verification_required")
                then log ++ ["üìÑ Underwriting Agent: Salary verification required (Monthly Salary: Rs" +:+ format_int_comma (monthly_salary customer) +:+ ")"]
                else log in
              reason ← getitem underwriting_result "reason";
              let log := log ++ ["üîé Underwriting Agent: " +:+ str_val reason] in
              let log := log ++ ["---"] in
              status ← getitem underwriting_result "status";
              if eq_str status "rejected" then
                let log := log ++ ["‚ùå Master Agent: Loan application has been REJECTED."] in
                let log := log ++ ["üìå Master Agent: Reason - " +:+ str_val reason] in
                let log := log ++ ["ü§ñ Master Agent: Thank you for choosing Tata Capital. You may reapply after improving your eligibility."] in
                Return log
              else if eq_str status "approved" then
                let log := log ++ ["‚úÖ Master Agent: Loan application has been APPROVED! üéâ"] in
                let log := log ++ ["üìù Master Agent: Generating sanction letter..."] in
                interest_rate ← getitem underwriting_result "interest_rate";
                tenure_months ← getitem underwriting_result "tenure_months";
                let filename :=
                  sanction_letter_generator customer_id loan_amount
                    interest_rate tenure_months "approved" in
                if from_option (λ s, negb (String.eqb s "")) false filename then
                  let log := log ++ ["‚úÖ Sanction Letter Agent: PDF generated successfully!"] in
                  let log := log ++ ["üìÑ Sanction Letter Agent: <a href='/download/" +:+ default "" filename +:+ "' target='_blank' class='pdf-link'>Download Your Sanction Letter</a>"] in
                  let log := log ++ ["---"] in
                  let log := log ++ ["ü§ñ Master Agent: Congratulations! Your loan has been approved. Please download your sanction letter above."] in
                  Return log
                else
                  let log := log ++ ["‚ùå Sanction Letter Agent: Error generating PDF. Please contact support."] in
                  Return log
              else Return log
          end
      end
  end.

(** [start_simulation]: the orchestration over the real engine, called with
    the default tenure. *)
Definition start_simulation (db : database) (customer_id : Z) (loan_amount : float)
    : result (list string) :=
  start_simulation_with
    (λ customer_id loan_amount,
       underwriting_agent db customer_id loan_amount default_tenure_months)
    db customer_id loan_amount.

End Agents.

(** ** The store's integers and stand-in collaborators *)

(** The integers an INTEGER column of the SQLite table holds: 64-bit signed. *)
Definition sqlite_integer (z : Z) : Prop := - 2 ^ 63 <= z < 2 ^ 63.

(** A profile read from the table. *)
Definition stored_profile (c : customer) : Prop :=
  sqlite_integer (credit_score c) /\
  sqlite_integer (pre_approved_limit c) /\
  sqlite_integer (monthly_salary c).

(** Stand-ins for the collaborators, for running the model. *)
Definition sample_format (spec : string) (x : float) : string := "<float>".

Definition sample_generator (customer_id : Z) (loan_amount : float)
    (interest_rate tenure_months : pyval) (approval_status : string) : option string :=
  Some ("Sanction_Letter_" +:+ str_int customer_id +:+ ".pdf").

Definition failing_generator (customer_id : Z) (loan_amount : float)
    (interest_rate tenure_months : pyval) (approval_status : string) : option string :=
  None.

(** Which keys a decision of the engine holds, by its status. *)
Definition decision_shape (d : gmap string pyval) : Prop :=
  (d !! "status" = Some (VStr "error") \/ d !! "status" = Some (VStr "rejected")) /\
    d !! "interest_rate" = None /\ d !! "tenure_months" = None /\ d !! "emi" = None /\
    d !! "salary_verification_required" = None \/
  d !! "status" = Some (VStr "approved") /\
    (exists rate, d !! "interest_rate" = Some (VFloat rate)) /\
    (exists tenure, d !! "tenure_months" = Some (VInt tenure)).

(** ** The SQLite file behind the store *)

Module Sqlite.

(** What the [customers] table's file holds: the rows, and the counter that
    AUTOINCREMENT keeps in [sqlite_sequence] (the largest rowid the table
    has ever been given). *)
Record sqlite_file : Set := SqliteFile {
  table : database;
  sequence : Z
}.

(** Errors of the statements the application runs. *)
Inductive sqlite_error : Set :=
  | IntTooLarge      (* OverflowError: Python int too large to convert to SQLite INTEGER *)
  | DatabaseFull.    (* sqlite3.OperationalError, from SQLITE_FULL *)

(** The largest rowid, a signed 64-bit integer. *)
Definition MAX_ROWID : Z := 2 ^ 63 - 1.

(** The largest key of the table, [None] when it is empty. *)
Definition max_rowid (t : database) : option Z :=
  foldr (λ k acc, Some (from_option (Z.max k) k acc)) None (map_to_list t).*1.

(** The rowid an AUTOINCREMENT table gives its next row: one above the
    largest rowid present and above the counter; none is left once either
    has reached the largest rowid. *)
Definition new_rowid (file : sqlite_file) : option Z :=
  let v := match max_rowid (table file) with
           | None => Some 1
           | Some k => if MAX_ROWID <=? k then None else Some (k + 1)
           end in
  match v with
  | None => None
  | Some v =>
      if sequence file =? MAX_ROWID then None
      else Some (Z.max v (sequence file + 1))
  end.

(** Whether a Python int can be bound to a parameter of a statement. *)
Definition binds (z : Z) : bool := (- 2 ^ 63 <=? z) && (z <? 2 ^ 63).

(** [INSERT INTO customers (name, phone, address, credit_score,
    pre_approved_limit, monthly_salary) VALUES (?, ?, ?, ?, ?, ?)] within
    the current transaction: the new rowid and the file, or the error, which
    leaves the file as it was. *)
Definition insert_customer (row : customer_row) (file : sqlite_file)
    : sqlite_error + Z * sqlite_file :=
  if binds (row_credit_score row) && binds (row_pre_approved_limit row)
     && binds (row_monthly_salary row) then
    match new_rowid file with
    | None => inl DatabaseFull
    | Some rowid =>
        inr (rowid, {| table := <[rowid := row]> (table file); sequence := rowid |})
    end
  else inl IntTooLarge.

(** [executemany] of the insert over a list of rows, in one transaction. *)
Fixpoint insert_customers (rows : list customer_row) (file : sqlite_file)
    : sqlite_error + sqlite_file :=
  match rows with
  | [] => inr file
  | row :: rows =>
      match insert_customer row file with
      | inl e => inl e
      | inr (_, file) => insert_customers rows file
      end
  end.

End Sqlite.
Import Sqlite.

(** The rows of [default_customers] in [init_db], in their order. *)
Definition default_rows : list customer_row :=
  [ CustomerRow "Rajesh Kumar" "+91-9876543210"
      "123 MG Road, Bangalore, Karnataka - 560001" 750 500000 80000;
    CustomerRow "Priya Sharma" "+91-9123456789"
      "456 Park Street, Kolkata, West Bengal - 700016" 650 200000 50000;
    CustomerRow "Amit Patel" "+91-9988776655"
      "789 Marine Drive, Mumbai, Maharashtra - 400020" 720 300000 120000 ].

(** [init_db()]: create the table if the file has none ([None]), and fill an
    empty table with the default customers. The result is the error raised,
    if any, and the file as the call leaves it: an insert that fails is not
    committed. *)
Definition init_db (file : option sqlite_file) : option sqlite_error * sqlite_file :=
  let file := default {| table := ∅; sequence := 0 |} file in
  let count := size (table file) in
  if (count =? 0)%nat then
    match insert_customers default_rows file with
    | inl e => (Some e, file)
    | inr file' => (None, file')
    end
  else (None, file).

(** The dicts of [get_all_customers], flat, unlike those of
    [get_customer_by_id]. *)
Record listed_customer : Set := ListedCustomer {
  listed_id : Z;
  listed_name : string;
  listed_phone : string;
  listed_address : string;
  listed_credit_score : Z;
  listed_pre_approved_limit : Z;
  listed_monthly_salary : Z
}.

(** The order of [ORDER BY id] on the rows of the table. *)
Definition by_id (a b : Z * customer_row) : Prop := a.1 <= b.1.

#[export] Instance by_id_dec : RelDecision by_id := λ a b, decide (a.1 <= b.1).

(** [get_all_customers()]: [SELECT ... FROM customers ORDER BY id]. *)
Definition get_all_customers (db : database) : list listed_customer :=
  (λ '(rowid, row),
     {| listed_id := rowid;
        listed_name := row_name row;
        listed_phone := row_phone row;
        listed_address := row_address row;
        listed_credit_score := row_credit_score row;
        listed_pre_approved_limit := row_pre_approved_limit row;
        listed_monthly_salary := row_monthly_salary row |})
  <$> merge_sort by_id (map_to_list db).

(** [add_customer_to_db(name, phone, address, credit_score,
    pre_approved_limit, monthly_salary)] for [str] and [int] arguments:
    the insert, committed, and [cursor.lastrowid]. *)
Definition add_customer_to_db (name phone address : string)
    (credit_score pre_approved_limit monthly_salary : Z) (file : sqlite_file)
    : (sqlite_error + Z) * sqlite_file :=
  match insert_customer
          (CustomerRow name phone address credit_score pre_approved_limit monthly_salary)
          file with
  | inl e => (inl e, file)
  | inr (customer_id, file') => (inr customer_id, file')
  end.

(** The files the application can produce: [init_db] on a new file, then
    any number of successful [add_customer_to_db] calls and further
    [init_db] calls. *)
Inductive reachable : sqlite_file -> Prop :=
  | reachable_init file :
      init_db None = (None, file) -> reachable file
  | reachable_restart file file' :
      reachable file -> init_db (Some file) = (None, file') -> reachable file'
  | reachable_add file file' name phone address credit_score pre_approved_limit
      monthly_salary customer_id :
      reachable file ->
      add_customer_to_db name phone address credit_score pre_approved_limit
        monthly_salary file = (inr customer_id, file') ->
      reachable file'.

(** [grows file file']: [file'] comes from [file] by successful
    [add_customer_to_db] and [init_db] calls. *)
Inductive grows : sqlite_file -> sqlite_file -> Prop :=
  | grows_refl file : grows file file
  | grows_restart file file' file'' :
      grows file file' -> init_db (Some file') = (None, file'') -> grows file file''
  | grows_add file file' file'' name phone address credit_score pre_approved_limit
      monthly_salary customer_id :
      grows file file' ->
      add_customer_to_db name phone address credit_score pre_approved_limit
        monthly_salary file' = (inr customer_id, file'') ->
      grows file file''.

(** All rows hold 64-bit integers. *)
Definition rows_fit (t : database) : Prop :=
  map_Forall (λ _ row, sqlite_integer (row_credit_score row) /\
                       sqlite_integer (row_pre_approved_limit row) /\
                       sqlite_integer (row_monthly_salary row)) t.

(** The ids of the table are [1 .. sequence]. *)
Definition ids_are_dense (file : sqlite_file) : Prop :=
  0 <= sequence file /\
  forall k, is_Some (table file !! k) <-> 1 <= k <= sequence file.

(** The dict [get_all_customers] makes of a row. *)
Definition listed (entry : Z * customer_row) : listed_customer :=
  {| listed_id := entry.1;
     listed_name := row_name entry.2;
     listed_phone := row_phone entry.2;
     listed_address := row_address entry.2;
     listed_credit_score := row_credit_score entry.2;
     listed_pre_approved_limit := row_pre_approved_limit entry.2;
     listed_monthly_salary := row_monthly_salary entry.2 |}.

(** ** The sanction letter *)

(** The calls [sanction_letter_generator] makes on its reportlab canvas. *)
Inductive canvas_call : Set :=
  | SetFont (psfontname : string) (size : Z)
  | DrawString (x y : float) (text : string)
  | Line (x1 y1 x2 y2 : float)
  | SetFillColorRGB (r g b : pynum)
  | Save.

Section Letter.

Variable format_float : string -> float -> string.

(** [reportlab.lib.units.inch] and the two components of
    [reportlab.lib.pagesizes.letter]. *)
Variables inch width height : float.

(** [str.upper] *)
Variable upper : string -> string.

Local Open Scope float_scope.

(** [sanction_letter_generator(customer_id, loan_amount, interest_rate,
    tenure_months, approval_status)] for a float amount, a float rate and
    an int tenure, as [start_simulation] calls it with the entries of an
    approved decision. [stamp] and [today] are the two readings of
    [datetime.now()], formatted; [saved] tells whether [c.save()] wrote the
    file or raised. The value is what the function returns, with the canvas
    calls made until then; whatever is raised inside is caught and turned
    into [None]. Console output is not part of the model. *)
Definition sanction_letter_generator (stamp today : string) (saved : bool)
    (db : database) (customer_id : Z) (loan_amount interest_rate : float)
    (tenure_months : Z) (approval_status : string) : option string * list canvas_call :=
  match get_customer_by_id db customer_id with
  | None => (None, [])
  | Some customer =>
      let filename :=
        ("Sanction_Letter_" +:+ str_int customer_id +:+ "_" +:+ stamp +:+ ".pdf")%string in
      let c : list canvas_call := [] in
      let c := (c ++ [SetFont "Helvetica-Bold" 20])%list in
      let c := (c ++ [DrawString (1 * inch) (height - 1 * inch) "TATA CAPITAL"])%list in
      let c := (c ++ [SetFont "Helvetica" 10])%list in
      let c := (c ++ [DrawString (1 * inch) (height - 1.3 * inch)
                        "Financial Services Limited"])%list in
      let c := (c ++ [Line (1 * inch) (height - 1.5 * inch)
                        (width - 1 * inch) (height - 1.5 * inch)])%list in
      let c := (c ++ [SetFont "Helvetica-Bold" 16])%list in
      let c := (c ++ [DrawString (1 * inch) (height - 2 * inch) "LOAN SANCTION LETTER"])%list in
      let c := (c ++ [SetFont "Helvetica" 11])%list in
      let c := (c ++ [DrawString (1 * inch) (height - 2.5 * inch)
                        ("Date: " +:+ today)])%list in
      let c := (c ++ [SetFont "Helvetica-Bold" 12])%list in
      let c := (c ++ [DrawString (1 * inch) (height - 3 * inch) "Customer Details:"])%list in
      let c := (c ++ [SetFont "Helvetica" 11])%list in
      let y_position := height - 3.3 * inch in
      let c := (c ++ [DrawString (1.2 * inch) y_position
                        ("Name: " +:+ name customer)])%list in
      let y_position := y_position - 0.25 * inch in
      let c := (c ++ [DrawString (1.2 * inch) y_position
                        ("Phone: " +:+ phone (kyc_details customer))])%list in
      let y_position := y_position - 0.25 * inch in
      let c := (c ++ [DrawString (1.2 * inch) y_position
                        ("Address: " +:+ address (kyc_details customer))])%list in
      let y_position := y_position - 0.5 * inch in
      let c := (c ++ [SetFont "Helvetica-Bold" 12])%list in
      let c := (c ++ [DrawString (1 * inch) y_position "Loan Details:"])%list in
      let y_position := y_position - 0.3 * inch in
      let c := (c ++ [SetFont "Helvetica" 11])%list in
      let c := (c ++ [DrawString (1.2 * inch) y_position
                        ("Loan Amount: Rs " +:+ format_float "," loan_amount)])%list in
      let y_position := y_position - 0.25 * inch in
      let c := (c ++ [DrawString (1.2 * inch) y_position
                        ("Interest Rate: " +:+ format_float "" interest_rate +:+
                         "% per annum")])%list in
      let y_position := y_position - 0.25 * inch in
      let c := (c ++ [DrawString (1.2 * inch) y_position
                        ("Tenure: " +:+ str_int tenure_months +:+ " months")])%list in
      let y_position := y_position - 0.25 * inch in
      let total_payable := loan_amount * (1 + interest_rate / 100) in
      match float_div_int total_payable tenure_months with
      | Raise _ => (None, c)
      | Return emi =>
          let c := (c ++ [DrawString (1.2 * inch) y_position
                            ("Estimated EMI: Rs " +:+ format_float ",.2f" emi)])%list in
          let y_position := y_position - 0.5 * inch in
          let c := (c ++ [SetFont "Helvetica-Bold" 14])%list in
          let c :=
            if String.eqb approval_status "approved" then
              let c := (c ++ [SetFillColorRGB (PyInt 0) (PyFloat 0.5) (PyInt 0)])%list in
              (c ++ [DrawString (1 * inch) y_position "STATUS: APPROVED"])%list
            else
              let c := (c ++ [SetFillColorRGB (PyFloat 0.8) (PyInt 0) (PyInt 0)])%list in
              (c ++ [DrawString (1 * inch) y_position
                       ("STATUS: " +:+ upper approval_status)])%list in
          let c := (c ++ [SetFillColorRGB (PyInt 0) (PyInt 0) (PyInt 0)])%list in
          let c := (c ++ [SetFont "Helvetica-Oblique" 9])%list in
          let c := (c ++ [DrawString (1 * inch) (1 * inch)
                            "This is a system-generated letter. No signature is required."])%list in
          let c := (c ++ [DrawString (1 * inch) (0.75 * inch)
                            "For queries, contact: support@tatacapital.com | 1800-123-4567"])%list in
          let c := (c ++ [Save])%list in
          if saved then (Some filename, c) else (None, c)
      end
  end.

(** The generator as [start_simulation] calls it: with the entries of the
    decision, a float rate and an int tenure for the decisions of the
    engine; [other_arguments] stands for calls with entries of other
    types. *)
Variable other_arguments : Z -> float -> pyval -> pyval -> string -> option string.

Definition letter_step (stamp today : string) (saved : bool) (db : database)
    (customer_id : Z) (loan_amount : float) (interest_rate tenure_months : pyval)
    (approval_status : string) : option string :=
  match interest_rate, tenure_months with
  | VFloat interest_rate, VInt tenure_months =>
      (sanction_letter_generator stamp today saved db customer_id loan_amount
         interest_rate tenure_months approval_status).1
  | _, _ => other_arguments customer_id loan_amount interest_rate tenure_months approval_status
  end.

End Letter.

(** ** The limits of the runtime

    [get_customer_by_id], the agents and [start_simulation] above are the
    code on ids that SQLite binds and on ints that Python prints. Two limits
    of the runtime sit in front of them. sqlite3 binds a Python int to a
    statement only when it fits a signed 64-bit integer, and raises
    OverflowError otherwise. CPython (3.11, and the older lines since their
    security releases of 2022) converts an int to its decimal string only
    up to 4300 digits, and raises ValueError beyond. The definitions named
    [_call] are the same functions with the two limits in place. *)

(** [sys.get_int_max_str_digits()], as the interpreter starts. *)
Definition INT_MAX_STR_DIGITS : Z := 4300.

(** Whether an int has at most 4300 decimal digits, the sign aside. *)
Definition int_str_ok (z : Z) : bool := Z.abs z <? 10 ^ INT_MAX_STR_DIGITS.

(** [f"{z}"] *)
Definition fstring_int (z : Z) : result string :=
  if int_str_ok z then Return (str_int z) else Raise ValueError.

(** [f"{z:,}"] *)
Definition fstring_int_comma (z : Z) : result string :=
  if int_str_ok z then Return (format_int_comma z) else Raise ValueError.

(** Whether [f"{x:,}"] converts the number: a float always prints. *)
Definition num_str_ok (x : pynum) : bool :=
  match x with
  | PyInt z => int_str_ok z
  | PyFloat _ => true
  end.

Section Calls.

Variable format_float : string -> float -> string.

(** [f"{x:,}"] *)
Definition fstring_num_comma (x : pynum) : result string :=
  match x with
  | PyInt z => fstring_int_comma z
  | PyFloat f => Return (format_float "," f)
  end.

(** [f"{v}"] *)
Definition fstring_val (v : pyval) : result string :=
  match v with
  | VInt z => fstring_int z
  | _ => Return (str_val format_float v)
  end.

(** [get_customer_by_id(customer_id)]: [cursor.execute] binds the id, then
    the SELECT runs. *)
Definition get_customer_by_id_call (db : database) (customer_id : Z)
    : result (option customer) :=
  if binds customer_id then Return (get_customer_by_id db customer_id)
  else Raise OverflowError.

Definition verification_agent_call (db : database) (customer_id : Z)
    : result verification_result :=
  customer ← get_customer_by_id_call db customer_id;
  match customer with
  | None => Return (VerificationError "Customer not found")
  | Some customer => Return (VerificationSuccess (name customer) (kyc_details customer))
  end.

Definition stretch_tier_call (monthly_salary : Z) (loan_amount : pynum) (tenure_months : Z)
    : result (option (gmap string pyval)) :=
  total_amount ← num_mul_float loan_amount 1.12;
  emi ← float_div_int total_amount tenure_months;
  max_emi ← num_mul_float (PyInt monthly_salary) 0.5;
  if PrimFloat.leb emi max_emi then
    monthly_salary_str ← fstring_int_comma monthly_salary;
    Return (Some {[
      "status" := VStr "approved";
      "reason" := VStr ("Salary verification passed. EMI (Rs" +:+ format_float ",.2f" emi +:+
                        ") is within 50% of monthly salary (Rs" +:+
                        monthly_salary_str +:+ ")");
      "interest_rate" := VFloat 12.0;
      "tenure_months" := VInt tenure_months;
      "emi" := VFloat emi;
      "salary_verification_required" := VBool true ]})
  else
    Return (Some {[
      "status" := VStr "rejected";
      "reason" := VStr ("EMI (Rs" +:+ format_float ",.2f" emi +:+
                        ") exceeds 50% of monthly salary (Rs" +:+
                        format_float ",.2f" max_emi +:+ ")") ]}).

Definition underwriting_agent_call (db : database) (customer_id : Z)
    (loan_amount : pynum) (tenure_months : Z) : result (option (gmap string pyval)) :=
  customer ← get_customer_by_id_call db customer_id;
  match customer with
  | None =>
      Return (Some {[ "status" := VStr "error"; "reason" := VStr "Customer not found" ]})
  | Some customer =>
      let credit_score := credit_score customer in
      let pre_approved_limit := pre_approved_limit customer in
      let monthly_salary := monthly_salary customer in
      if credit_score <? 700 then
        credit_score_str ← fstring_int credit_score;
        Return (Some {[
          "status" := VStr "rejected";
          "reason" := VStr ("Credit score (" +:+ credit_score_str +:+ ") is below the minimum requirement of 700") ]})
      else if num_gt loan_amount (2 * pre_approved_limit) then
        loan_amount_str ← fstring_num_comma loan_amount;
        ceiling_str ← fstring_int_comma (2 * pre_approved_limit);
        Return (Some {[
          "status" := VStr "rejected";
          "reason" := VStr ("Requested loan amount (Rs" +:+ loan_amount_str +:+
                            ") exceeds 2x the pre-approved limit (Rs" +:+
                            ceiling_str +:+ ")") ]})
      else if num_le loan_amount pre_approved_limit then
        loan_amount_str ← fstring_num_comma loan_amount;
        pre_approved_limit_str ← fstring_int_comma pre_approved_limit;
        Return (Some {[
          "status" := VStr "approved";
          "reason" := VStr ("Loan amount (Rs" +:+ loan_amount_str +:+
                            ") is within pre-approved limit (Rs" +:+
                            pre_approved_limit_str +:+ ")");
          "interest_rate" := VFloat 10.5;
          "tenure_months" := VInt tenure_months ]})
      else if int_lt_num pre_approved_limit loan_amount
              && num_le loan_amount (2 * pre_approved_limit) then
        stretch_tier_call monthly_salary loan_amount tenure_months
      else Return None
  end.

(** The PDF collaborator, as in [start_simulation_with]. *)
Variable sanction_letter_generator : Z -> float -> pyval -> pyval -> string -> option string.

(** The body of [start_simulation] with the limits in place, over the call
    [underwriting_agent(customer_id, loan_amount)] it makes. *)
Definition start_simulation_call_with
    (underwriting : Z -> pynum -> result (option (gmap string pyval)))
    (db : database) (customer_id : Z) (loan_amount : float) : result (list string) :=
  let log : list string := [] in
  let log := log ++ ["ü§ñ Master Agent: Hello! Welcome to Tata Capital AI Loan Processing System."] in
  customer_id_str ← fstring_int customer_id;
  let log := log ++ ["ü§ñ Master Agent: Processing loan application for Customer ID: " +:+ customer_id_str] in
  let log := log ++ ["ü§ñ Master Agent: Requested Loan Amount: Rs" +:+ format_float "," loan_amount] in
  let log := log ++ ["---"] in
  let log := log ++ ["üîç Master Agent: Initiating KYC verification..."] in
  verification_result ← verification_agent_call db customer_id;
  match verification_result with
  | VerificationError message =>
      let log := log ++ ["‚ùå Verification Agent: " +:+ message] in
      Return log
  | VerificationSuccess name kyc_details =>
      let log := log ++ ["‚úÖ Verification Agent: KYC verification successful!"] in
      let log := log ++ ["üìã Verification Agent: Customer Name - " +:+ name] in
      let log := log ++ ["üìã Verification Agent: Phone - " +:+ phone kyc_details] in
      let log := log ++ ["üìã Verification Agent: Address - " +:+ address kyc_details] in
      let log := log ++ ["---"] in
      let log := log ++ ["üìä Master Agent: Forwarding to Underwriting Agent for credit assessment..."] in
      underwriting_result ← underwriting customer_id (PyFloat loan_amount);
      customer ← get_customer_by_id_call db customer_id;
      match customer with
      | None => Raise TypeError
      | Some customer =>
          credit_score_str ← fstring_int (credit_score customer);
          let log := log ++ ["üí≥ Underwriting Agent: Credit Score - " +:+ credit_score_str] in
          pre_approved_limit_str ← fstring_int_comma (pre_approved_limit customer);
          let log := log ++ ["üí∞ Underwriting Agent: Pre-approved Limit - Rs" +:+ pre_approved_limit_str] in
          match underwriting_result with
          | None => Raise AttributeError
          | Some underwriting_result =>
              log ←
                (if from_option truthy false (underwriting_result !! "salary_verification_required")
                 then
                   monthly_salary_str ← fstring_int_comma (monthly_salary customer);
                   Return (log ++ ["üìÑ Underwriting Agent: Salary verification required (Monthly Salary: Rs" +:+ monthly_salary_str +:+ ")"])
                 else Return log);
              reason ← getitem underwriting_result "reason";
              reason_str ← fstring_val reason;
              let log := log ++ ["üîé Underwriting Agent: " +:+ reason_str] in
              let log := log ++ ["---"] in
              status ← getitem underwriting_result "status";
              if eq_str status "rejected" then
                let log := log ++ ["‚ùå Master Agent: Loan application has been REJECTED."] in
                reason_str ← fstring_val reason;
                let log := log ++ ["üìå Master Agent: Reason - " +:+ reason_str] in
                let log := log ++ ["ü§ñ Master Agent: Thank you for choosing Tata Capital. You may reapply after improving your eligibility."] in
                Return log
              else if eq_str status "approved" then
                let log := log ++ ["‚úÖ Master Agent: Loan application has been APPROVED! üéâ"] in
                let log := log ++ ["üìù Master Agent: Generating sanction letter..."] in
                interest_rate ← getitem underwriting_result "interest_rate";
                tenure_months ← getitem underwriting_result "tenure_months";
                let filename :=
                  sanction_letter_generator customer_id loan_amount
                    interest_rate tenure_months "approved" in
                if from_option (λ s, negb (String.eqb s "")) false filename then
                  let log := log ++ ["‚úÖ Sanction Letter Agent: PDF generated successfully!"] in
                  let log := log ++ ["üìÑ Sanction Letter Agent: <a href='/download/" +:+ default "" filename +:+ "' target='_blank' class='pdf-link'>Download Your Sanction Letter</a>"] in
                  let log := log ++ ["---"] in
                  let log := log ++ ["ü§ñ Master Agent: Congratulations! Your loan has been approved. Please download your sanction letter above."] in
                  Return log
                else
                  let log := log ++ ["‚ùå Sanction Letter Agent: Error generating PDF. Please contact support."] in
                  Return log
              else Return log
          end
      end
  end.

Definition start_simulation_call (db : database) (customer_id : Z) (loan_amount : float)
    : result (list string) :=
  start_simulation_call_with
    (λ customer_id loan_amount,
       underwriting_agent_call db customer_id loan_amount default_tenure_months)
    db customer_id loan_amount.

End Calls.

(** ** The origin of a decision *)

(** The branch of [underwriting_agent] a decision comes from, with the
    guards that led there. *)
Inductive decision_origin (format_float : string -> float -> string) (db : database)
    (customer_id : Z) (loan_amount : pynum) (tenure_months : Z)
    (d : gmap string pyval) : Prop :=
  | from_missing_customer :
      get_customer_by_id db customer_id = None ->
      d = {[ "status" := VStr "error"; "reason" := VStr "Customer not found" ]} ->
      decision_origin format_float db customer_id loan_amount tenure_months d
  | from_credit_floor c :
      get_customer_by_id db customer_id = Some c ->
      credit_score c < 700 ->
      d = {[ "status" := VStr "rejected";
             "reason" := VStr ("Credit score (" +:+ str_int (credit_score c) +:+
                               ") is below the minimum requirement of 700") ]} ->
      decision_origin format_float db customer_id loan_amount tenure_months d
  | from_hard_ceiling c :
      get_customer_by_id db customer_id = Some c ->
      700 <= credit_score c ->
      num_gt loan_amount (2 * pre_approved_limit c) = true ->
      d = {[ "status" := VStr "rejected";
             "reason" := VStr ("Requested loan amount (Rs" +:+
                               format_num_comma format_float loan_amount +:+
                               ") exceeds 2x the pre-approved limit (Rs" +:+
                               format_int_comma (2 * pre_approved_limit c) +:+ ")") ]} ->
      decision_origin format_float db customer_id loan_amount tenure_months d
  | from_within_limit c :
      get_customer_by_id db customer_id = Some c ->
      700 <= credit_score c ->
      num_gt loan_amount (2 * pre_approved_limit c) = false ->
      num_le loan_amount (pre_approved_limit c) = true ->
      d = {[ "status" := VStr "approved";
             "reason" := VStr ("Loan amount (Rs" +:+
                               format_num_comma format_float loan_amount +:+
                               ") is within pre-approved limit (Rs" +:+
                               format_int_comma (pre_approved_limit c) +:+ ")");
             "interest_rate" := VFloat 10.5;
             "tenure_months" := VInt tenure_months ]} ->
      decision_origin format_float db customer_id loan_amount tenure_months d
  | from_stretch_tier c total_amount emi max_emi :
      get_customer_by_id db customer_id = Some c ->
      700 <= credit_score c ->
      int_lt_num (pre_approved_limit c) loan_amount = true ->
      num_le loan_amount (2 * pre_approved_limit c) = true ->
      num_mul_float loan_amount 1.12 = Return total_amount ->
      float_div_int total_amount tenure_months = Return emi ->
      num_mul_float (PyInt (monthly_salary c)) 0.5 = Return max_emi ->
      (PrimFloat.leb emi max_emi = true /\
       d = {[ "status" := VStr "approved";
              "reason" := VStr ("Salary verification passed. EMI (Rs" +:+
                                format_float ",.2f" emi +:+
                                ") is within 50% of monthly salary (Rs" +:+
                                format_int_comma (monthly_salary c) +:+ ")");
              "interest_rate" := VFloat 12.0;
              "tenure_months" := VInt tenure_months;
              "emi" := VFloat emi;
              "salary_verification_required" := VBool true ]} \/
       PrimFloat.leb emi max_emi = false /\
       d = {[ "status" := VStr "rejected";
              "reason" := VStr ("EMI (Rs" +:+ format_float ",.2f" emi +:+
                                ") exceeds 50% of monthly salary (Rs" +:+
                                format_float ",.2f" max_emi +:+ ")") ]}) ->
      decision_origin format_float db customer_id loan_amount tenure_months d.

(** * Facts *)

(** ** The Python fragment on concrete values *)

Example str_int_750 : str_int 750 = "750".
Proof. reflexivity. Qed.

Example format_int_comma_examples :
  format_int_comma 500000 = "500,000" /\ format_int_comma 1100000 = "1,100,000" /\
  format_int_comma 999 = "999" /\ format_int_comma 0 = "0" /\
  format_int_comma (-1234) = "-1,234" /\ format_int_comma 1000 = "1,000".
Proof. repeat split; reflexivity. Qed.

(** The conversion threshold is exactly where rounding stops being finite. *)
Example float_of_int_threshold :
  PrimFloat.is_infinity (round_int DBL_OVERFLOW) = true /\
  PrimFloat.is_infinity (round_int (DBL_OVERFLOW - 1)) = false /\
  float_of_int (2 ^ 1024) = Raise OverflowError /\
  float_of_int 60 = Return 60%float.
Proof. repeat split; vm_compute; reflexivity. Qed.

(** [100 * 1.12] is not [112.0] in binary64. *)
Example mul_100_112 :
  num_mul_float (PyInt 100) 1.12 = Return 112.00000000000001%float /\
  PrimFloat.leb 112.00000000000001 112 = false.
Proof. split; vm_compute; reflexivity. Qed.

Example float_compare_int_examples :
  num_compare (PyFloat 0.5) 0 = Some Gt /\ num_compare (PyFloat 0.5) 1 = Some Lt /\
  num_compare (PyFloat 600000) 600000 = Some Eq /\
  num_compare (PyFloat nan) 0 = None /\
  num_compare (PyFloat infinity) (2 ^ 2000) = Some Gt /\
  num_compare (PyFloat (-2.5)) (-2) = Some Lt /\
  num_compare (PyFloat 9007199254740992) 9007199254740993 = Some Lt.
Proof. repeat split; vm_compute; reflexivity. Qed.

(** ** Order facts of the mixed comparisons *)

Section Comparisons.

Implicit Types (x : pynum) (f : float) (z : Z).

Lemma num_gt_spec x z : num_gt x z = true <-> num_compare x z = Some Gt.
Proof.
  unfold num_gt. destruct (num_compare x z) as [[]|]; split; congruence.
Qed.

Lemma num_le_spec x z :
  num_le x z = true <-> num_compare x z = Some Lt \/ num_compare x z = Some Eq.
Proof.
  unfold num_le. destruct (num_compare x z) as [[]|]; split; intros; try tauto; try congruence.
  all: destruct H; congruence.
Qed.

(** [x > z] and [x <= z] never hold together. *)
Lemma num_gt_not_le x z : num_gt x z = true -> num_le x z = false.
Proof. unfold num_gt, num_le. destruct (num_compare x z) as [[]|]; congruence. Qed.

Lemma num_le_not_gt x z : num_le x z = true -> num_gt x z = false.
Proof. unfold num_gt, num_le. destruct (num_compare x z) as [[]|]; congruence. Qed.

(** A float that is ordered against one integer is ordered against all. *)
Lemma float_compare_int_defined f z z' :
  float_compare_int f z <> None -> float_compare_int f z' <> None.
Proof.
  unfold float_compare_int. destruct (Prim2SF f) as [s|s| |s m e]; try congruence.
  destruct e; congruence.
Qed.

Lemma num_compare_defined x z z' :
  num_compare x z <> None -> num_compare x z' <> None.
Proof. destruct x; simpl; [congruence | apply float_compare_int_defined]. Qed.

(** Among ordered numbers, one of [x > z], [x <= z] holds. *)
Lemma num_le_or_gt x z z' :
  num_compare x z' <> None -> num_gt x z = false -> num_le x z = true.
Proof.
  intros Hd. apply (num_compare_defined _ _ z) in Hd.
  unfold num_gt, num_le. destruct (num_compare x z) as [[]|]; congruence.
Qed.

Lemma compare_not_gt a b c : (a ?= b) = c -> c <> Gt -> a <= b.
Proof. intros <- H. exact H. Qed.

Lemma le_compare a b : a <= b -> Some (a ?= b) = Some Lt \/ Some (a ?= b) = Some Eq.
Proof. intros H. destruct (Z.compare_spec a b); auto. lia. Qed.

Lemma float_le_mono f z z' c :
  float_compare_int f z = Some c -> c <> Gt -> z <= z' ->
  float_compare_int f z' = Some Lt \/ float_compare_int f z' = Some Eq.
Proof.
  unfold float_compare_int. destruct (Prim2SF f) as [s|s| |s m e]; try congruence.
  - intros Hc Hne Hz. apply le_compare.
    assert (0 <= z) by (apply (compare_not_gt 0 z c); congruence). lia.
  - intros Hc Hne Hz. destruct s; auto; congruence.
  - set (a := cond_Zopp s (Z.pos m)).
    destruct e as [|p|p]; intros Hc Hne Hz; apply le_compare.
    + assert (a * 2 ^ 0 <= z) by (apply (compare_not_gt _ _ c); congruence). lia.
    + assert (a * 2 ^ Z.pos p <= z) by (apply (compare_not_gt _ _ c); congruence). lia.
    + assert (a <= z * 2 ^ Z.pos p) by (apply (compare_not_gt _ _ c); congruence).
      assert (0 < 2 ^ Z.pos p) by (apply Z.pow_pos_nonneg; lia). nia.
Qed.

(** [x <= z] is upward closed in [z]. *)
Lemma num_le_mono x z z' : num_le x z = true -> z <= z' -> num_le x z' = true.
Proof.
  intros H Hz. apply num_le_spec in H. apply num_le_spec.
  destruct x as [a|f]; simpl in *.
  - destruct (Z.compare_spec a z), (Z.compare_spec a z'); first [ now auto | exfalso; lia | destruct H; congruence ].
  - destruct H as [H|H]; eapply float_le_mono; eauto; congruence.
Qed.

(** [x > z] is downward closed in [z]. *)
Lemma num_gt_mono x z z' : num_gt x z = true -> z' <= z -> num_gt x z' = true.
Proof.
  intros H Hz. destruct (num_gt x z') eqn:E; [reflexivity|].
  assert (Hd : num_compare x z <> None) by (apply num_gt_spec in H; congruence).
  apply (num_le_or_gt _ _ _ Hd) in E.
  apply (num_le_mono _ _ z) in E; [|exact Hz].
  apply num_le_not_gt in E. congruence.
Qed.

Lemma compare_not_lt a b c : (a ?= b) = c -> c <> Lt -> b <= a.
Proof. intros <- H. apply Z.ge_le. exact H. Qed.

Lemma gt_compare a b : b < a -> Some (a ?= b) = Some Gt.
Proof. intros H. f_equal. apply Z.compare_gt_iff. exact H. Qed.

Lemma float_ge_strict f z z' c :
  float_compare_int f z = Some c -> c <> Lt -> z' < z ->
  float_compare_int f z' = Some Gt.
Proof.
  unfold float_compare_int. destruct (Prim2SF f) as [s|s| |s m e]; try congruence.
  - intros Hc Hne Hz. apply gt_compare.
    assert (z <= 0) by (apply (compare_not_lt 0 z c); congruence). lia.
  - intros Hc Hne Hz. destruct s; auto; congruence.
  - set (a := cond_Zopp s (Z.pos m)).
    destruct e as [|p|p]; intros Hc Hne Hz; apply gt_compare.
    + assert (z <= a * 2 ^ 0) by (apply (compare_not_lt _ _ c); congruence). lia.
    + assert (z <= a * 2 ^ Z.pos p) by (apply (compare_not_lt _ _ c); congruence). lia.
    + assert (z * 2 ^ Z.pos p <= a) by (apply (compare_not_lt _ _ c); congruence).
      assert (0 < 2 ^ Z.pos p) by (apply Z.pow_pos_nonneg; lia). nia.
Qed.

(** At or above [z] means strictly above every smaller integer. *)
Lemma num_ge_strict x z z' c :
  num_compare x z = Some c -> c <> Lt -> z' < z -> num_gt x z' = true.
Proof.
  intros Hc Hne Hz. apply num_gt_spec. destruct x as [a|f]; simpl in *.
  - apply gt_compare. assert (z <= a) by (apply (compare_not_lt a z c); congruence). lia.
  - eapply float_ge_strict; eauto.
Qed.

End Comparisons.

(** ** The rule chain of the engine, rule by rule *)

Section Engine.

Variable format_float : string -> float -> string.
Variable db : database.

Implicit Types (c : customer) (loan_amount : pynum) (tenure_months customer_id : Z).

Lemma bind_Return {A B} (a : A) (k : A -> result B) : (Return a ≫= k) = k a.
Proof. reflexivity. Qed.

Lemma float_of_int_in_range z :
  Z.abs z < DBL_OVERFLOW -> float_of_int z = Return (round_int z).
Proof.
  intros H. unfold float_of_int. apply Z.ltb_lt in H. rewrite H. reflexivity.
Qed.

Lemma float_of_int_overflow z :
  DBL_OVERFLOW <= Z.abs z -> float_of_int z = Raise OverflowError.
Proof.
  intros H. unfold float_of_int. apply Z.ltb_ge in H. rewrite H. reflexivity.
Qed.

Lemma float_div_int_in_range a n :
  n <> 0 -> Z.abs n < DBL_OVERFLOW ->
  float_div_int a n = Return (PrimFloat.div a (round_int n)).
Proof.
  intros Hn H. unfold float_div_int. rewrite (float_of_int_in_range _ H), bind_Return.
  apply Z.eqb_neq in Hn. rewrite Hn. reflexivity.
Qed.

(** Rule 1, the credit floor. *)
Lemma rule_credit_floor customer_id c loan_amount tenure_months :
  get_customer_by_id db customer_id = Some c ->
  credit_score c < 700 ->
  underwriting_agent format_float db customer_id loan_amount tenure_months =
  Return (Some {[
    "status" := VStr "rejected";
    "reason" := VStr ("Credit score (" +:+ str_int (credit_score c) +:+
                      ") is below the minimum requirement of 700") ]}).
Proof.
  intros Hc Hs. unfold underwriting_agent. rewrite Hc. cbv zeta.
  apply Z.ltb_lt in Hs. rewrite Hs. reflexivity.
Qed.

(** Rule 2, the hard ceiling. *)
Lemma rule_hard_ceiling customer_id c loan_amount tenure_months :
  get_customer_by_id db customer_id = Some c ->
  700 <= credit_score c ->
  num_gt loan_amount (2 * pre_approved_limit c) = true ->
  underwriting_agent format_float db customer_id loan_amount tenure_months =
  Return (Some {[
    "status" := VStr "rejected";
    "reason" := VStr ("Requested loan amount (Rs" +:+
                      format_num_comma format_float loan_amount +:+
                      ") exceeds 2x the pre-approved limit (Rs" +:+
                      format_int_comma (2 * pre_approved_limit c) +:+ ")") ]}).
Proof.
  intros Hc Hs Hgt. unfold underwriting_agent. rewrite Hc. cbv zeta.
  apply Z.ltb_ge in Hs. rewrite Hs, Hgt. reflexivity.
Qed.

(** Rule 3, within the pre-approved limit. *)
Lemma rule_within_limit customer_id c loan_amount tenure_months :
  get_customer_by_id db customer_id = Some c ->
  700 <= credit_score c ->
  num_gt loan_amount (2 * pre_approved_limit c) = false ->
  num_le loan_amount (pre_approved_limit c) = true ->
  underwriting_agent format_float db customer_id loan_amount tenure_months =
  Return (Some {[
    "status" := VStr "approved";
    "reason" := VStr ("Loan amount (Rs" +:+ format_num_comma format_float loan_amount +:+
                      ") is within pre-approved limit (Rs" +:+
                      format_int_comma (pre_approved_limit c) +:+ ")");
    "interest_rate" := VFloat 10.5;
    "tenure_months" := VInt tenure_months ]}).
Proof.
  intros Hc Hs Hgt Hle. unfold underwriting_agent. rewrite Hc. cbv zeta.
  apply Z.ltb_ge in Hs. rewrite Hs, Hgt, Hle. reflexivity.
Qed.

(** Rule 4, the stretch tier. *)
Lemma rule_stretch_tier customer_id c loan_amount tenure_months :
  get_customer_by_id db customer_id = Some c ->
  700 <= credit_score c ->
  int_lt_num (pre_approved_limit c) loan_amount = true ->
  num_le loan_amount (2 * pre_approved_limit c) = true ->
  underwriting_agent format_float db customer_id loan_amount tenure_months =
  stretch_tier format_float (monthly_salary c) loan_amount tenure_months.
Proof.
  intros Hc Hs Hlt Hle. unfold underwriting_agent. rewrite Hc. cbv zeta.
  apply Z.ltb_ge in Hs. rewrite Hs, (num_le_not_gt _ _ Hle).
  unfold int_lt_num in *. rewrite (num_gt_not_le _ _ Hlt), Hlt, Hle. reflexivity.
Qed.

(** Within the limit of a non-negative pre-approved limit, the ceiling
    cannot be exceeded. *)
Lemma within_limit_below_ceiling loan_amount limit :
  0 <= limit -> num_le loan_amount limit = true -> num_gt loan_amount (2 * limit) = false.
Proof.
  intros H0 Hle. apply num_le_not_gt. apply (num_le_mono _ limit); [exact Hle | lia].
Qed.

(** A positive amount within the limit makes the limit positive. *)
Lemma positive_within_limit loan_amount limit :
  num_gt loan_amount 0 = true -> num_le loan_amount limit = true -> 0 < limit.
Proof.
  intros Hpos Hle. destruct (Z.lt_ge_cases 0 limit) as [|Hneg]; [assumption|].
  apply (num_le_mono _ _ 0) in Hle; [|lia].
  apply num_le_not_gt in Hle. congruence.
Qed.

(** The outcome of the stretch tier when its arithmetic is defined. *)
Lemma stretch_tier_defined monthly_salary loan_amount tenure_months a :
  as_float loan_amount = Return a ->
  tenure_months <> 0 -> Z.abs tenure_months < DBL_OVERFLOW ->
  Z.abs monthly_salary < DBL_OVERFLOW ->
  let emi := PrimFloat.div (PrimFloat.mul a 1.12) (round_int tenure_months) in
  let max_emi := PrimFloat.mul (round_int monthly_salary) 0.5 in
  (total_amount ← num_mul_float loan_amount 1.12;
   float_div_int total_amount tenure_months) = Return emi /\
  num_mul_float (PyInt monthly_salary) 0.5 = Return max_emi /\
  stretch_tier format_float monthly_salary loan_amount tenure_months =
  Return (Some (
    if PrimFloat.leb emi max_emi then
      {[ "status" := VStr "approved";
         "reason" := VStr ("Salary verification passed. EMI (Rs" +:+
                           format_float ",.2f" emi +:+
                           ") is within 50% of monthly salary (Rs" +:+
                           format_int_comma monthly_salary +:+ ")");
         "interest_rate" := VFloat 12.0;
         "tenure_months" := VInt tenure_months;
         "emi" := VFloat emi;
         "salary_verification_required" := VBool true ]}
    else
      {[ "status" := VStr "rejected";
         "reason" := VStr ("EMI (Rs" +:+ format_float ",.2f" emi +:+
                           ") exceeds 50% of monthly salary (Rs" +:+
                           format_float ",.2f" max_emi +:+ ")") ]})).
Proof.
  intros Ha Ht0 Ht Hs emi max_emi.
  assert (E1 : num_mul_float loan_amount 1.12 = Return (PrimFloat.mul a 1.12)).
  { unfold num_mul_float. rewrite Ha. reflexivity. }
  assert (E2 : num_mul_float (PyInt monthly_salary) 0.5 = Return max_emi).
  { unfold num_mul_float. simpl as_float. rewrite (float_of_int_in_range _ Hs). reflexivity. }
  assert (E3 : float_div_int (PrimFloat.mul a 1.12) tenure_months = Return emi).
  { apply float_div_int_in_range; assumption. }
  split; [|split].
  - rewrite E1, bind_Return. exact E3.
  - exact E2.
  - unfold stretch_tier. rewrite E1, bind_Return, E3, bind_Return, E2, bind_Return.
    destruct (PrimFloat.leb emi max_emi); reflexivity.
Qed.

End Engine.

(** ** The engine on concrete requests *)

(** Scenario C of the specification: the EMI of 450000 over 60 months is
    8400 up to rounding, and well within half of 120000. *)
Example scenario_C_emi :
  underwriting_agent sample_format default_customers 3 (PyInt 450000) 60 =
  Return (Some {[
    "status" := VStr "approved";
    "reason" := VStr "Salary verification passed. EMI (Rs<float>) is within 50% of monthly salary (Rs120,000)";
    "interest_rate" := VFloat 12.0;
    "tenure_months" := VInt 60;
    "emi" := VFloat 8400.000000000002;
    "salary_verification_required" := VBool true ]}).
Proof. vm_compute; reflexivity. Qed.

(** Binary64 decides the split: in exact arithmetic an EMI of 100 x 1.12
    would equal half of 224, the float EMI is above it. *)
Example rounding_decides_the_split :
  underwriting_agent sample_format
    {[ 1 := CustomerRow "" "" "" 700 60 224 ]} 1 (PyInt 100) 1 =
  Return (Some {[
    "status" := VStr "rejected";
    "reason" := VStr "EMI (Rs<float>) exceeds 50% of monthly salary (Rs<float>)" ]}).
Proof. vm_compute; reflexivity. Qed.

(** A NaN amount matches no rule: the engine falls off its end and returns
    [None], on which the orchestration raises. *)
Example nan_amount_falls_through :
  underwriting_agent sample_format default_customers 1 (PyFloat nan) 60 = Return None /\
  start_simulation sample_format sample_generator default_customers 1 nan =
    Raise AttributeError.
Proof. split; vm_compute; reflexivity. Qed.

(** A zero tenure in the stretch tier divides by zero. *)
Example zero_tenure_raises :
  underwriting_agent sample_format default_customers 3 (PyInt 450000) 0 =
  Raise ZeroDivisionError.
Proof. vm_compute; reflexivity. Qed.

(** ** Claims on the eligibility engine *)

Lemma num_gt_int a z : num_gt (PyInt a) z = true <-> z < a.
Proof.
  unfold num_gt; simpl. destruct (Z.compare_spec a z); split; intros; try congruence; lia.
Qed.

Lemma num_le_int a z : num_le (PyInt a) z = true <-> a <= z.
Proof.
  unfold num_le; simpl. destruct (Z.compare_spec a z); split; intros; try congruence; lia.
Qed.

Lemma int64_converts : 2 ^ 64 < DBL_OVERFLOW.
Proof. reflexivity. Qed.

(** An amount in the stretch band of a stored limit converts to a float. *)
Lemma stretch_amount_converts loan_amount limit :
  sqlite_integer limit ->
  int_lt_num limit loan_amount = true ->
  num_le loan_amount (2 * limit) = true ->
  exists a, as_float loan_amount = Return a.
Proof.
  intros [Hlo Hhi] Hlt Hle. destruct loan_amount as [z|f]; simpl.
  - apply num_gt_int in Hlt. apply num_le_int in Hle.
    exists (round_int z). apply float_of_int_in_range.
    pose proof int64_converts. lia.
  - eauto.
Qed.

Lemma stored_salary_converts c : stored_profile c -> Z.abs (monthly_salary c) < DBL_OVERFLOW.
Proof.
  intros (_ & _ & [Hlo Hhi]). pose proof int64_converts. lia.
Qed.

(** ** The calls within the limits of the runtime *)

Lemma int64_below_the_digit_limit : 2 ^ 64 < 10 ^ INT_MAX_STR_DIGITS.
Proof. vm_compute; reflexivity. Qed.

(** A stored integer and its double have far fewer than 4300 digits. *)
Lemma int64_prints z : sqlite_integer z -> int_str_ok z = true.
Proof.
  intros [Hlo Hhi]. unfold int_str_ok. apply Z.ltb_lt.
  apply Z.le_lt_trans with (2 ^ 64); [lia | exact int64_below_the_digit_limit].
Qed.

Lemma double_int64_prints z : sqlite_integer z -> int_str_ok (2 * z) = true.
Proof.
  intros [Hlo Hhi]. unfold int_str_ok. apply Z.ltb_lt.
  apply Z.le_lt_trans with (2 ^ 64); [lia | exact int64_below_the_digit_limit].
Qed.

Lemma fstring_int_ok z : int_str_ok z = true -> fstring_int z = Return (str_int z).
Proof. intros H. unfold fstring_int. rewrite H. reflexivity. Qed.

Lemma fstring_int_comma_ok z :
  int_str_ok z = true -> fstring_int_comma z = Return (format_int_comma z).
Proof. intros H. unfold fstring_int_comma. rewrite H. reflexivity. Qed.

Lemma fstring_num_comma_ok format_float x :
  num_str_ok x = true ->
  fstring_num_comma format_float x = Return (format_num_comma format_float x).
Proof. destruct x; simpl; [apply fstring_int_comma_ok | reflexivity]. Qed.

(** An amount that is positive and within a stored limit prints. *)
Lemma amount_within_limit_prints loan_amount limit :
  sqlite_integer limit ->
  num_gt loan_amount 0 = true ->
  num_le loan_amount limit = true ->
  num_str_ok loan_amount = true.
Proof.
  intros Hl Hpos Hle. destruct loan_amount as [z|f]; [|reflexivity].
  apply num_gt_int in Hpos. apply num_le_int in Hle.
  apply int64_prints. destruct Hl. split; lia.
Qed.

Lemma binds_iff z : binds z = true <-> sqlite_integer z.
Proof.
  unfold binds, sqlite_integer. rewrite andb_true_iff, Z.leb_le, Z.ltb_lt. reflexivity.
Qed.

(** A call finds a profile when the id binds and the table has its row. *)
Lemma get_customer_by_id_call_found db customer_id c :
  get_customer_by_id_call db customer_id = Return (Some c) <->
  sqlite_integer customer_id /\ get_customer_by_id db customer_id = Some c.
Proof.
  unfold get_customer_by_id_call. rewrite <- binds_iff.
  destruct (binds customer_id); split.
  - intros [= ->]. auto.
  - intros [_ ->]. reflexivity.
  - discriminate.
  - intros [[=] _].
Qed.

Lemma get_customer_by_id_call_bound db customer_id :
  sqlite_integer customer_id ->
  get_customer_by_id_call db customer_id = Return (get_customer_by_id db customer_id).
Proof.
  intros H. apply binds_iff in H. unfold get_customer_by_id_call. rewrite H. reflexivity.
Qed.

Lemma get_customer_by_id_call_unbound db customer_id :
  ~ sqlite_integer customer_id ->
  get_customer_by_id_call db customer_id = Raise OverflowError.
Proof.
  intros H. unfold get_customer_by_id_call.
  destruct (binds customer_id) eqn:E; [|reflexivity].
  apply binds_iff in E. contradiction.
Qed.

Section EngineCalls.

Variable format_float : string -> float -> string.
Variable db : database.

Implicit Types (c : customer) (loan_amount : pynum) (tenure_months customer_id : Z).

(** Rule 1 of a call. *)
Lemma call_credit_floor customer_id c loan_amount tenure_months :
  get_customer_by_id_call db customer_id = Return (Some c) ->
  credit_score c < 700 ->
  underwriting_agent_call format_float db customer_id loan_amount tenure_months =
  (credit_score_str ← fstring_int (credit_score c);
   Return (Some {[
     "status" := VStr "rejected";
     "reason" := VStr ("Credit score (" +:+ credit_score_str +:+
                       ") is below the minimum requirement of 700") ]})).
Proof.
  intros Hc Hs. unfold underwriting_agent_call. rewrite Hc, bind_Return. cbv zeta.
  apply Z.ltb_lt in Hs. rewrite Hs. reflexivity.
Qed.

(** Rule 2 of a call. *)
Lemma call_hard_ceiling customer_id c loan_amount tenure_months :
  get_customer_by_id_call db customer_id = Return (Some c) ->
  700 <= credit_score c ->
  num_gt loan_amount (2 * pre_approved_limit c) = true ->
  underwriting_agent_call format_float db customer_id loan_amount tenure_months =
  (loan_amount_str ← fstring_num_comma format_float loan_amount;
   ceiling_str ← fstring_int_comma (2 * pre_approved_limit c);
   Return (Some {[
     "status" := VStr "rejected";
     "reason" := VStr ("Requested loan amount (Rs" +:+ loan_amount_str +:+
                       ") exceeds 2x the pre-approved limit (Rs" +:+
                       ceiling_str +:+ ")") ]})).
Proof.
  intros Hc Hs Hgt. unfold underwriting_agent_call. rewrite Hc, bind_Return. cbv zeta.
  apply Z.ltb_ge in Hs. rewrite Hs, Hgt. reflexivity.
Qed.

(** Rule 3 of a call. *)
Lemma call_within_limit customer_id c loan_amount tenure_months :
  get_customer_by_id_call db customer_id = Return (Some c) ->
  700 <= credit_score c ->
  num_gt loan_amount (2 * pre_approved_limit c) = false ->
  num_le loan_amount (pre_approved_limit c) = true ->
  num_str_ok loan_amount = true ->
  int_str_ok (pre_approved_limit c) = true ->
  underwriting_agent_call format_float db customer_id loan_amount tenure_months =
  Return (Some {[
    "status" := VStr "approved";
    "reason" := VStr ("Loan amount (Rs" +:+ format_num_comma format_float loan_amount +:+
                      ") is within pre-approved limit (Rs" +:+
                      format_int_comma (pre_approved_limit c) +:+ ")");
    "interest_rate" := VFloat 10.5;
    "tenure_months" := VInt tenure_months ]}).
Proof.
  intros Hc Hs Hgt Hle Ha Hl. unfold underwriting_agent_call.
  rewrite Hc, bind_Return. cbv zeta.
  apply Z.ltb_ge in Hs. rewrite Hs, Hgt, Hle.
  rewrite (fstring_num_comma_ok _ _ Ha), bind_Return.
  rewrite (fstring_int_comma_ok _ Hl), bind_Return. reflexivity.
Qed.

(** Rule 4 of a call. *)
Lemma call_stretch_tier customer_id c loan_amount tenure_months :
  get_customer_by_id_call db customer_id = Return (Some c) ->
  700 <= credit_score c ->
  int_lt_num (pre_approved_limit c) loan_amount = true ->
  num_le loan_amount (2 * pre_approved_limit c) = true ->
  underwriting_agent_call format_float db customer_id loan_amount tenure_months =
  stretch_tier_call format_float (monthly_salary c) loan_amount tenure_months.
Proof.
  intros Hc Hs Hlt Hle. unfold underwriting_agent_call. rewrite Hc, bind_Return. cbv zeta.
  apply Z.ltb_ge in Hs. rewrite Hs, (num_le_not_gt _ _ Hle).
  unfold int_lt_num in *. rewrite (num_gt_not_le _ _ Hlt), Hlt, Hle. reflexivity.
Qed.

(** With a salary that prints, the stretch tier of a call is the stretch
    tier. *)
Lemma stretch_tier_call_agrees monthly_salary loan_amount tenure_months :
  int_str_ok monthly_salary = true ->
  stretch_tier_call format_float monthly_salary loan_amount tenure_months =
  stretch_tier format_float monthly_salary loan_amount tenure_months.
Proof.
  intros H. unfold stretch_tier_call, stretch_tier.
  rewrite (fstring_int_comma_ok _ H).
  destruct (num_mul_float loan_amount 1.12) as [total|e]; [|reflexivity].
  rewrite !bind_Return.
  destruct (float_div_int total tenure_months) as [emi|e]; [|reflexivity].
  rewrite !bind_Return.
  destruct (num_mul_float (PyInt monthly_salary) 0.5) as [max_emi|e]; reflexivity.
Qed.

(** On a stored profile, and with an amount that prints unless the credit
    floor rejects, a call is the engine. *)
Lemma underwriting_agent_call_agrees customer_id c loan_amount tenure_months :
  get_customer_by_id_call db customer_id = Return (Some c) ->
  stored_profile c ->
  (700 <= credit_score c -> num_str_ok loan_amount = true) ->
  underwriting_agent_call format_float db customer_id loan_amount tenure_months =
  underwriting_agent format_float db customer_id loan_amount tenure_months.
Proof.
  intros Hc (Hcs & Hl & Hm) Ha.
  pose proof (proj1 (get_customer_by_id_call_found _ _ _) Hc) as [_ Hc'].
  unfold underwriting_agent_call, underwriting_agent.
  rewrite Hc, Hc', bind_Return. cbv zeta.
  destruct (credit_score c <? 700) eqn:Es.
  { rewrite (fstring_int_ok _ (int64_prints _ Hcs)). reflexivity. }
  apply Z.ltb_ge in Es. specialize (Ha Es).
  rewrite (fstring_num_comma_ok _ _ Ha), !bind_Return.
  rewrite (fstring_int_comma_ok _ (double_int64_prints _ Hl)).
  rewrite (fstring_int_comma_ok _ (int64_prints _ Hl)).
  rewrite (stretch_tier_call_agrees _ _ _ (int64_prints _ Hm)).
  reflexivity.
Qed.

(** Whatever a call returns, the engine returns: the limits only add
    exceptions. *)
Lemma underwriting_agent_call_returns customer_id loan_amount tenure_months r :
  underwriting_agent_call format_float db customer_id loan_amount tenure_months = Return r ->
  underwriting_agent format_float db customer_id loan_amount tenure_months = Return r.
Proof.
  unfold underwriting_agent_call, underwriting_agent, get_customer_by_id_call.
  destruct (binds customer_id); [|discriminate]. rewrite bind_Return.
  destruct (get_customer_by_id db customer_id) as [c|]; [|trivial]. cbv zeta.
  destruct (credit_score c <? 700).
  { unfold fstring_int. destruct (int_str_ok (credit_score c)); [trivial | discriminate]. }
  destruct (num_gt loan_amount (2 * pre_approved_limit c)).
  { destruct loan_amount as [z|f]; unfold fstring_num_comma, fstring_int_comma, format_num_comma;
      [destruct (int_str_ok z); [|discriminate]|];
      rewrite bind_Return;
      (destruct (int_str_ok (2 * pre_approved_limit c)); [trivial | discriminate]). }
  destruct (num_le loan_amount (pre_approved_limit c)).
  { destruct loan_amount as [z|f]; unfold fstring_num_comma, fstring_int_comma, format_num_comma;
      [destruct (int_str_ok z); [|discriminate]|];
      rewrite bind_Return;
      (destruct (int_str_ok (pre_approved_limit c)); [trivial | discriminate]). }
  destruct (int_lt_num (pre_approved_limit c) loan_amount &&
            num_le loan_amount (2 * pre_approved_limit c)); [|trivial].
  unfold stretch_tier_call, stretch_tier.
  destruct (num_mul_float loan_amount 1.12) as [total|e]; [|discriminate].
  rewrite !bind_Return.
  destruct (float_div_int total tenure_months) as [emi|e]; [|discriminate].
  rewrite !bind_Return.
  destruct (num_mul_float (PyInt (monthly_salary c)) 0.5) as [max_emi|e]; [|discriminate].
  rewrite !bind_Return.
  destruct (PrimFloat.leb emi max_emi); [|trivial].
  unfold fstring_int_comma. destruct (int_str_ok (monthly_salary c)); [trivial | discriminate].
Qed.

End EngineCalls.

(** C1 (amended). For every stored profile with creditScore >= 700 and every
    request with preApprovedLimit < requestedAmount <= 2 x preApprovedLimit
    whose tenureMonths is positive and converts to a float (below
    2^1024 - 2^970), the engine computes emi = (requestedAmount x 1.12) /
    tenureMonths and maxAllowedEmi = monthlySalary x 0.5 in binary64, and
    returns the approved decision (rate 12.0, the requested tenure, the
    computed emi, salary_verification_required = True) exactly when
    emi <= maxAllowedEmi, and otherwise the rejected decision whose reason
    cites the computed EMI and the max-allowed EMI. *)
Theorem stretch_tier_emi_split format_float db customer_id c loan_amount tenure_months :
  get_customer_by_id db customer_id = Some c ->
  stored_profile c ->
  700 <= credit_score c ->
  int_lt_num (pre_approved_limit c) loan_amount = true ->
  num_le loan_amount (2 * pre_approved_limit c) = true ->
  0 < tenure_months < DBL_OVERFLOW ->
  exists emi max_emi : float,
    (total_amount ← num_mul_float loan_amount 1.12;
     float_div_int total_amount tenure_months) = Return emi /\
    num_mul_float (PyInt (monthly_salary c)) 0.5 = Return max_emi /\
    underwriting_agent format_float db customer_id loan_amount tenure_months =
    Return (Some (
      if PrimFloat.leb emi max_emi then
        {[ "status" := VStr "approved";
           "reason" := VStr ("Salary verification passed. EMI (Rs" +:+
                             format_float ",.2f" emi +:+
                             ") is within 50% of monthly salary (Rs" +:+
                             format_int_comma (monthly_salary c) +:+ ")");
           "interest_rate" := VFloat 12.0;
           "tenure_months" := VInt tenure_months;
           "emi" := VFloat emi;
           "salary_verification_required" := VBool true ]}
      else
        {[ "status" := VStr "rejected";
           "reason" := VStr ("EMI (Rs" +:+ format_float ",.2f" emi +:+
                             ") exceeds 50% of monthly salary (Rs" +:+
                             format_float ",.2f" max_emi +:+ ")") ]})).
Proof.
  intros Hc Hst Hs Hlt Hle [Ht0 Ht].
  destruct (stretch_amount_converts loan_amount _ (proj1 (proj2 Hst)) Hlt Hle) as [a Ha].
  destruct (stretch_tier_defined format_float (monthly_salary c) loan_amount tenure_months a)
    as (E1 & E2 & E3); try assumption; try lia.
  { apply stored_salary_converts, Hst. }
  eexists _, _. split; [exact E1|]. split; [exact E2|].
  rewrite (rule_stretch_tier format_float db customer_id c); assumption.
Qed.

(** Scenario C of the specification: 450000 over 60 months against a limit
    of 300000 and a salary of 120000. *)
Lemma stretch_tier_emi_split_scenario_C :
  exists emi max_emi : float,
    (total_amount ← num_mul_float (PyInt 450000) 1.12;
     float_div_int total_amount 60) = Return emi /\
    num_mul_float (PyInt 120000) 0.5 = Return max_emi /\
    underwriting_agent sample_format default_customers 3 (PyInt 450000) 60 =
    Return (Some (
      if PrimFloat.leb emi max_emi then
        {[ "status" := VStr "approved";
           "reason" := VStr ("Salary verification passed. EMI (Rs" +:+
                             sample_format ",.2f" emi +:+
                             ") is within 50% of monthly salary (Rs" +:+
                             format_int_comma 120000 +:+ ")");
           "interest_rate" := VFloat 12.0;
           "tenure_months" := VInt 60;
           "emi" := VFloat emi;
           "salary_verification_required" := VBool true ]}
      else
        {[ "status" := VStr "rejected";
           "reason" := VStr ("EMI (Rs" +:+ sample_format ",.2f" emi +:+
                             ") exceeds 50% of monthly salary (Rs" +:+
                             sample_format ",.2f" max_emi +:+ ")") ]})).
Proof.
  apply (stretch_tier_emi_split sample_format default_customers 3
           (Customer 3 "Amit Patel"
              (Kyc "+91-9988776655" "789 Marine Drive, Mumbai, Maharashtra - 400020")
              720 300000 120000)
           (PyInt 450000) 60).
  - reflexivity.
  - unfold stored_profile, sqlite_integer; simpl; lia.
  - simpl; lia.
  - reflexivity.
  - reflexivity.
  - split; [lia | reflexivity].
Defined.

(** C1 as stated fails: a positive tenure too large for a float makes the
    stretch tier raise OverflowError instead of returning a decision. *)
Lemma stretch_tier_huge_tenure_raises :
  get_customer_by_id default_customers 3 =
    Some (Customer 3 "Amit Patel"
            (Kyc "+91-9988776655" "789 Marine Drive, Mumbai, Maharashtra - 400020")
            720 300000 120000) /\
  700 <= 720 /\
  int_lt_num 300000 (PyInt 450000) = true /\
  num_le (PyInt 450000) (2 * 300000) = true /\
  0 < 2 ^ 1024 /\
  underwriting_agent sample_format default_customers 3 (PyInt 450000) (2 ^ 1024) =
    Raise OverflowError /\
  forall d, underwriting_agent sample_format default_customers 3 (PyInt 450000) (2 ^ 1024) <>
    Return (Some d).
Proof.
  assert (E : underwriting_agent sample_format default_customers 3 (PyInt 450000) (2 ^ 1024) =
              Raise OverflowError) by (vm_compute; reflexivity).
  repeat split; try reflexivity; try lia; try exact E.
  intros d. rewrite E. discriminate.
Qed.

(** C2. For every stored profile with creditScore >= 700 and every request
    with a positive requestedAmount <= preApprovedLimit, equality included,
    the engine returns approved with interest rate exactly 10.5 and the
    requested tenure; the decision has no salary_verification_required
    entry (so the flag reads false) and no emi, and it is the same whatever
    the monthly salary of the profile. *)
Theorem within_limit_approved format_float db customer_id c loan_amount tenure_months :
  get_customer_by_id_call db customer_id = Return (Some c) ->
  stored_profile c ->
  700 <= credit_score c ->
  num_gt loan_amount 0 = true ->
  num_le loan_amount (pre_approved_limit c) = true ->
  exists decision : gmap string pyval,
    underwriting_agent_call format_float db customer_id loan_amount tenure_months =
      Return (Some decision) /\
    decision !! "status" = Some (VStr "approved") /\
    decision !! "interest_rate" = Some (VFloat 10.5) /\
    decision !! "tenure_months" = Some (VInt tenure_months) /\
    decision !! "salary_verification_required" = None /\
    from_option truthy false (decision !! "salary_verification_required") = false /\
    decision !! "emi" = None /\
    forall db' customer_id' c',
      get_customer_by_id_call db' customer_id' = Return (Some c') ->
      credit_score c' = credit_score c ->
      pre_approved_limit c' = pre_approved_limit c ->
      underwriting_agent_call format_float db' customer_id' loan_amount tenure_months =
        Return (Some decision).
Proof.
  intros Hc (_ & Hl & _) Hs Hpos Hle.
  pose proof (positive_within_limit _ _ Hpos Hle) as H0.
  pose proof (within_limit_below_ceiling _ _ (Z.lt_le_incl _ _ H0) Hle) as Hgt.
  pose proof (amount_within_limit_prints _ _ Hl Hpos Hle) as Ha.
  pose proof (int64_prints _ Hl) as Hp.
  eexists. split; [apply (call_within_limit format_float db customer_id c); assumption|].
  repeat (split; [reflexivity|]).
  intros db' customer_id' c' Hc' Es El.
  rewrite (call_within_limit format_float db' customer_id' c'); try assumption.
  - rewrite El. reflexivity.
  - lia.
  - rewrite El. exact Hgt.
  - rewrite El. exact Hle.
  - rewrite El. exact Hp.
Qed.

(** Scenario A of the specification: 500000 requested at a limit of 500000. *)
Lemma within_limit_approved_scenario_A :
  exists decision : gmap string pyval,
    underwriting_agent_call sample_format default_customers 1 (PyInt 500000) 60 =
      Return (Some decision) /\
    decision !! "status" = Some (VStr "approved") /\
    decision !! "interest_rate" = Some (VFloat 10.5) /\
    decision !! "tenure_months" = Some (VInt 60) /\
    decision !! "salary_verification_required" = None /\
    from_option truthy false (decision !! "salary_verification_required") = false /\
    decision !! "emi" = None /\
    forall db' customer_id' c',
      get_customer_by_id_call db' customer_id' = Return (Some c') ->
      credit_score c' = 750 ->
      pre_approved_limit c' = 500000 ->
      underwriting_agent_call sample_format db' customer_id' (PyInt 500000) 60 =
        Return (Some decision).
Proof.
  apply (within_limit_approved sample_format default_customers 1
           (Customer 1 "Rajesh Kumar"
              (Kyc "+91-9876543210" "123 MG Road, Bangalore, Karnataka - 560001")
              750 500000 80000)
           (PyInt 500000) 60).
  - reflexivity.
  - unfold stored_profile, sqlite_integer; simpl; lia.
  - simpl; lia.
  - reflexivity.
  - reflexivity.
Defined.

(** C3. For every profile with creditScore < 700 the engine returns
    rejected, with a reason that cites the score and the threshold 700, for
    every amount (NaN included), tenure (zero included), limit and salary:
    the decision is a function of the credit score alone, no later rule is
    consulted. *)
Theorem credit_floor_rejects format_float db customer_id c :
  get_customer_by_id db customer_id = Some c ->
  credit_score c < 700 ->
  let decision : gmap string pyval :=
    {[ "status" := VStr "rejected";
       "reason" := VStr ("Credit score (" +:+ str_int (credit_score c) +:+
                         ") is below the minimum requirement of 700") ]} in
  (forall loan_amount tenure_months,
     underwriting_agent format_float db customer_id loan_amount tenure_months =
       Return (Some decision)) /\
  (forall db' customer_id' c' loan_amount' tenure_months',
     get_customer_by_id db' customer_id' = Some c' ->
     credit_score c' = credit_score c ->
     underwriting_agent format_float db' customer_id' loan_amount' tenure_months' =
       Return (Some decision)).
Proof.
  intros Hc Hs decision. split.
  - intros. apply (rule_credit_floor format_float db customer_id c); assumption.
  - intros db' customer_id' c' loan_amount' tenure_months' Hc' Es. subst decision.
    rewrite <- Es. apply (rule_credit_floor format_float db' customer_id' c'); [assumption|lia].
Qed.

(** Scenario B of the specification: credit score 650. *)
Lemma credit_floor_rejects_scenario_B :
  (forall loan_amount tenure_months,
     underwriting_agent sample_format default_customers 2 loan_amount tenure_months =
       Return (Some {[ "status" := VStr "rejected";
                       "reason" := VStr "Credit score (650) is below the minimum requirement of 700" ]})) /\
  (forall db' customer_id' c' loan_amount' tenure_months',
     get_customer_by_id db' customer_id' = Some c' ->
     credit_score c' = 650 ->
     underwriting_agent sample_format db' customer_id' loan_amount' tenure_months' =
       Return (Some {[ "status" := VStr "rejected";
                       "reason" := VStr "Credit score (650) is below the minimum requirement of 700" ]})).
Proof.
  apply (credit_floor_rejects sample_format default_customers 2
           (Customer 2 "Priya Sharma"
              (Kyc "+91-9123456789" "456 Park Street, Kolkata, West Bengal - 700016")
              650 200000 50000)).
  - reflexivity.
  - simpl; lia.
Defined.

(** The status the engine's decisions carry, branch by branch. *)
Lemma stretch_tier_cases format_float monthly_salary loan_amount tenure_months :
  (exists e, stretch_tier format_float monthly_salary loan_amount tenure_months = Raise e) \/
  (exists emi max_emi,
     stretch_tier format_float monthly_salary loan_amount tenure_months =
       Return (Some {[
         "status" := VStr "approved";
         "reason" := VStr ("Salary verification passed. EMI (Rs" +:+
                           format_float ",.2f" emi +:+
                           ") is within 50% of monthly salary (Rs" +:+
                           format_int_comma monthly_salary +:+ ")");
         "interest_rate" := VFloat 12.0;
         "tenure_months" := VInt tenure_months;
         "emi" := VFloat emi;
         "salary_verification_required" := VBool true ]}) \/
     stretch_tier format_float monthly_salary loan_amount tenure_months =
       Return (Some {[
         "status" := VStr "rejected";
         "reason" := VStr ("EMI (Rs" +:+ format_float ",.2f" emi +:+
                           ") exceeds 50% of monthly salary (Rs" +:+
                           format_float ",.2f" max_emi +:+ ")") ]})).
Proof.
  unfold stretch_tier.
  destruct (num_mul_float loan_amount 1.12) as [total|e]; [|left; eexists; reflexivity].
  rewrite bind_Return.
  destruct (float_div_int total tenure_months) as [emi|e]; [|left; eexists; reflexivity].
  rewrite bind_Return.
  destruct (num_mul_float (PyInt monthly_salary) 0.5) as [max_emi|e];
    [|left; eexists; reflexivity].
  rewrite bind_Return. right. exists emi, max_emi.
  destruct (PrimFloat.leb emi max_emi); [left|right]; reflexivity.
Qed.

Lemma underwriting_agent_shape format_float db customer_id loan_amount tenure_months d :
  underwriting_agent format_float db customer_id loan_amount tenure_months = Return (Some d) ->
  decision_shape d /\ exists reason, d !! "reason" = Some (VStr reason).
Proof.
  unfold underwriting_agent, decision_shape.
  destruct (get_customer_by_id db customer_id) as [c|]; cbv zeta.
  2: { intros [= <-]. split; [left|eexists]; repeat split; auto. }
  destruct (credit_score c <? 700).
  { intros [= <-]. split; [left|eexists]; repeat split; auto. }
  destruct (num_gt loan_amount (2 * pre_approved_limit c)).
  { intros [= <-]. split; [left|eexists]; repeat split; auto. }
  destruct (num_le loan_amount (pre_approved_limit c)).
  { intros [= <-]. split; [right|eexists]; repeat split; eauto. }
  destruct (int_lt_num (pre_approved_limit c) loan_amount &&
            num_le loan_amount (2 * pre_approved_limit c)); [|discriminate].
  destruct (stretch_tier_cases format_float (monthly_salary c) loan_amount tenure_months)
    as [[e E]|(emi & max_emi & [E|E])]; rewrite E; try discriminate.
  - intros [= <-]. split; [right|eexists]; repeat split; eauto.
  - intros [= <-]. split; [left|eexists]; repeat split; auto.
Qed.

(** C4 (amended). No request with requestedAmount strictly above
    2 x preApprovedLimit is approved: whatever a call returns for it is a
    rejected decision, for every credit score, salary and tenure, and the
    call does return it when the amount prints in the reason (a float, or an
    int of at most 4300 digits) or the credit score is below 700. The
    ceiling is strict: with a credit score that passes the floor and a
    positive limit, requestedAmount == 2 x preApprovedLimit goes on to the
    stretch tier, and requestedAmount == preApprovedLimit takes the
    within-limit rule. *)
Theorem hard_ceiling_strict format_float db customer_id c loan_amount tenure_months :
  get_customer_by_id_call db customer_id = Return (Some c) ->
  stored_profile c ->
  (num_gt loan_amount (2 * pre_approved_limit c) = true ->
   (forall r, underwriting_agent_call format_float db customer_id loan_amount tenure_months =
                Return r ->
              exists d, r = Some d /\ d !! "status" = Some (VStr "rejected")) /\
   (credit_score c < 700 \/ num_str_ok loan_amount = true ->
    exists d, underwriting_agent_call format_float db customer_id loan_amount tenure_months =
                Return (Some d) /\
              d !! "status" = Some (VStr "rejected"))) /\
  (700 <= credit_score c -> 0 < pre_approved_limit c ->
   num_compare loan_amount (2 * pre_approved_limit c) = Some Eq ->
   num_gt loan_amount (2 * pre_approved_limit c) = false /\
   num_le loan_amount (pre_approved_limit c) = false /\
   underwriting_agent_call format_float db customer_id loan_amount tenure_months =
     stretch_tier_call format_float (monthly_salary c) loan_amount tenure_months) /\
  (700 <= credit_score c -> 0 < pre_approved_limit c ->
   num_compare loan_amount (pre_approved_limit c) = Some Eq ->
   underwriting_agent_call format_float db customer_id loan_amount tenure_months =
     Return (Some {[
       "status" := VStr "approved";
       "reason" := VStr ("Loan amount (Rs" +:+ format_num_comma format_float loan_amount +:+
                         ") is within pre-approved limit (Rs" +:+
                         format_int_comma (pre_approved_limit c) +:+ ")");
       "interest_rate" := VFloat 10.5;
       "tenure_months" := VInt tenure_months ]})).
Proof.
  intros Hc (Hcs & Hl & Hm). split; [|split].
  - intros Hgt. split.
    + intros r. destruct (Z.lt_ge_cases (credit_score c) 700) as [Hs|Hs].
      * rewrite (call_credit_floor format_float db customer_id c) by assumption.
        unfold fstring_int. destruct (int_str_ok (credit_score c)); [|discriminate].
        intros [= <-]. eexists; split; reflexivity.
      * rewrite (call_hard_ceiling format_float db customer_id c) by assumption.
        destruct (fstring_num_comma format_float loan_amount); [|discriminate].
        rewrite bind_Return.
        destruct (fstring_int_comma (2 * pre_approved_limit c)); [|discriminate].
        intros [= <-]. eexists; split; reflexivity.
    + intros Hok. destruct (Z.lt_ge_cases (credit_score c) 700) as [Hs|Hs].
      * rewrite (call_credit_floor format_float db customer_id c) by assumption.
        rewrite (fstring_int_ok _ (int64_prints _ Hcs)).
        eexists; split; reflexivity.
      * destruct Hok as [Hlow|Hok]; [lia|].
        rewrite (call_hard_ceiling format_float db customer_id c) by assumption.
        rewrite (fstring_num_comma_ok _ _ Hok), bind_Return.
        rewrite (fstring_int_comma_ok _ (double_int64_prints _ Hl)).
        eexists; split; reflexivity.
  - intros Hs H0 Heq.
    assert (Hle : num_le loan_amount (2 * pre_approved_limit c) = true)
      by (apply num_le_spec; auto).
    assert (Hlt : int_lt_num (pre_approved_limit c) loan_amount = true).
    { apply (num_ge_strict _ _ _ _ Heq); [discriminate | lia]. }
    split; [apply num_le_not_gt; assumption|].
    split; [apply num_gt_not_le; assumption|].
    apply call_stretch_tier; assumption.
  - intros Hs H0 Heq.
    assert (Hle : num_le loan_amount (pre_approved_limit c) = true)
      by (apply num_le_spec; auto).
    apply call_within_limit; try assumption.
    + apply within_limit_below_ceiling; [lia | assumption].
    + destruct loan_amount as [z|f]; [|reflexivity].
      simpl in Heq. injection Heq as Heq. apply Z.compare_eq in Heq. subst z.
      apply int64_prints, Hl.
    + apply int64_prints, Hl.
Qed.

(** Scenario D of the specification (1100000 against a limit of 500000) and
    the two boundary amounts of the same profile. *)
Lemma hard_ceiling_strict_scenario_D :
  ((forall r, underwriting_agent_call sample_format default_customers 1 (PyInt 1100000) 60 =
                Return r ->
              exists d, r = Some d /\ d !! "status" = Some (VStr "rejected")) /\
   exists d, underwriting_agent_call sample_format default_customers 1 (PyInt 1100000) 60 =
               Return (Some d) /\
             d !! "status" = Some (VStr "rejected")) /\
  (num_gt (PyInt 1000000) (2 * 500000) = false /\
   num_le (PyInt 1000000) 500000 = false /\
   underwriting_agent_call sample_format default_customers 1 (PyInt 1000000) 60 =
     stretch_tier_call sample_format 80000 (PyInt 1000000) 60) /\
  underwriting_agent_call sample_format default_customers 1 (PyFloat 500000) 60 =
    Return (Some {[
      "status" := VStr "approved";
      "reason" := VStr ("Loan amount (Rs" +:+ sample_format "," 500000%float +:+
                        ") is within pre-approved limit (Rs" +:+
                        format_int_comma 500000 +:+ ")");
      "interest_rate" := VFloat 10.5;
      "tenure_months" := VInt 60 ]}).
Proof.
  pose (c := Customer 1 "Rajesh Kumar"
               (Kyc "+91-9876543210" "123 MG Road, Bangalore, Karnataka - 560001")
               750 500000 80000).
  assert (Hst : stored_profile c) by (unfold stored_profile, sqlite_integer; simpl; lia).
  split; [|split].
  - destruct (proj1 (hard_ceiling_strict sample_format default_customers 1 c
                       (PyInt 1100000) 60 eq_refl Hst)) as [Hall Hex]; [reflexivity|].
    split; [exact Hall|]. apply Hex. right. reflexivity.
  - apply (proj1 (proj2 (hard_ceiling_strict sample_format default_customers 1 c
                           (PyInt 1000000) 60 eq_refl Hst))).
    + simpl; lia.
    + simpl; lia.
    + reflexivity.
  - apply (proj2 (proj2 (hard_ceiling_strict sample_format default_customers 1 c
                           (PyFloat 500000) 60 eq_refl Hst))).
    + simpl; lia.
    + simpl; lia.
    + vm_compute; reflexivity.
Defined.

(** C4 as stated fails: an int amount of 4301 digits is above the ceiling of
    customer 1, whose credit score passes the floor, and the call raises
    ValueError while it prints the amount in the reason instead of
    returning the rejected decision. *)
Lemma hard_ceiling_huge_amount_raises :
  get_customer_by_id_call default_customers 1 =
    Return (Some (Customer 1 "Rajesh Kumar"
                    (Kyc "+91-9876543210" "123 MG Road, Bangalore, Karnataka - 560001")
                    750 500000 80000)) /\
  num_gt (PyInt (10 ^ 4300)) (2 * 500000) = true /\
  underwriting_agent_call sample_format default_customers 1 (PyInt (10 ^ 4300)) 60 =
    Raise ValueError /\
  forall d, underwriting_agent_call sample_format default_customers 1 (PyInt (10 ^ 4300)) 60 <>
    Return (Some d).
Proof.
  assert (E : underwriting_agent_call sample_format default_customers 1 (PyInt (10 ^ 4300)) 60 =
              Raise ValueError) by (vm_compute; reflexivity).
  split; [vm_compute; reflexivity|].
  split; [vm_compute; reflexivity|].
  split; [exact E|].
  intros d. rewrite E. discriminate.
Qed.

(** C5. For every input, a decision the engine returns with status rejected
    has no interest_rate, no tenure_months and no emi entry; a decision that
    has one of them is approved, and approved decisions have the rate and
    the tenure. *)
Theorem rejected_carries_no_terms format_float db customer_id loan_amount tenure_months d :
  underwriting_agent format_float db customer_id loan_amount tenure_months = Return (Some d) ->
  (d !! "status" = Some (VStr "rejected") ->
   d !! "interest_rate" = None /\ d !! "tenure_months" = None /\ d !! "emi" = None) /\
  (d !! "interest_rate" <> None \/ d !! "tenure_months" <> None \/ d !! "emi" <> None ->
   d !! "status" = Some (VStr "approved")) /\
  (d !! "status" = Some (VStr "approved") ->
   d !! "interest_rate" <> None /\ d !! "tenure_months" <> None).
Proof.
  intros H. apply underwriting_agent_shape in H as [[(Hst & Hr & Ht & He & _)|(Hst & [r Hr] & [t Ht])] _].
  - split; [auto|]. split.
    + intros [?|[?|?]]; congruence.
    + destruct Hst; congruence.
  - split; [congruence|]. split; [auto|]. intros _. split; congruence.
Qed.

(** The rejected decision of the hard ceiling (scenario D) and the approved
    decision of scenario A. *)
Lemma rejected_carries_no_terms_scenarios :
  let rejected : gmap string pyval :=
    {[ "status" := VStr "rejected";
       "reason" := VStr "Requested loan amount (Rs1,100,000) exceeds 2x the pre-approved limit (Rs1,000,000)" ]} in
  (rejected !! "status" = Some (VStr "rejected") ->
   rejected !! "interest_rate" = None /\ rejected !! "tenure_months" = None /\
   rejected !! "emi" = None) /\
  (rejected !! "interest_rate" <> None \/ rejected !! "tenure_months" <> None \/
   rejected !! "emi" <> None ->
   rejected !! "status" = Some (VStr "approved")) /\
  (rejected !! "status" = Some (VStr "approved") ->
   rejected !! "interest_rate" <> None /\ rejected !! "tenure_months" <> None).
Proof.
  apply (rejected_carries_no_terms sample_format default_customers 1 (PyInt 1100000) 60).
  reflexivity.
Defined.

(** The outcome of the engine depends on the store and the id only through
    the profile found: two stores and ids whose profiles have the same
    credit score, limit and salary give the same outcome for the same
    amount and tenure. *)
Theorem underwriting_agent_deterministic format_float db1 db2 id1 id2 c1 c2
    loan_amount tenure_months :
  get_customer_by_id db1 id1 = Some c1 ->
  get_customer_by_id db2 id2 = Some c2 ->
  credit_score c1 = credit_score c2 ->
  pre_approved_limit c1 = pre_approved_limit c2 ->
  monthly_salary c1 = monthly_salary c2 ->
  underwriting_agent format_float db1 id1 loan_amount tenure_months =
  underwriting_agent format_float db2 id2 loan_amount tenure_months.
Proof.
  intros H1 H2 Es El Em. unfold underwriting_agent.
  rewrite H1, H2. cbv zeta. rewrite Es, El, Em. reflexivity.
Qed.

(** Amit Patel's profile under another id in another store. *)
Lemma underwriting_agent_deterministic_two_stores :
  underwriting_agent sample_format default_customers 3 (PyInt 450000) 60 =
  underwriting_agent sample_format
    {[ 8 := CustomerRow "A. Patel" "" "" 720 300000 120000 ]} 8 (PyInt 450000) 60.
Proof.
  apply (underwriting_agent_deterministic sample_format default_customers
           {[ 8 := CustomerRow "A. Patel" "" "" 720 300000 120000 ]} 3 8
           (Customer 3 "Amit Patel"
              (Kyc "+91-9988776655" "789 Marine Drive, Mumbai, Maharashtra - 400020")
              720 300000 120000)
           (Customer 8 "A. Patel" (Kyc "" "") 720 300000 120000));
    reflexivity.
Defined.





(** ** Claims on verification and orchestration *)

(** [H] claims that a line is among the entries of a transcript whose
    entries all differ from it on their literal prefix. *)
Ltac no_such_line H :=
  cbn in H; repeat (destruct H as [H|H]; [discriminate H|]); exact H.

Section Orchestration.

Variable format_float : string -> float -> string.
Variable sanction_letter_generator : Z -> float -> pyval -> pyval -> string -> option string.
Variable db : database.

(** The transcript when verification fails. *)
Lemma start_simulation_not_found underwriting customer_id loan_amount :
  db !! customer_id = None ->
  start_simulation_with format_float sanction_letter_generator underwriting
    db customer_id loan_amount =
  Return [ "ü§ñ Master Agent: Hello! Welcome to Tata Capital AI Loan Processing System.";
           "ü§ñ Master Agent: Processing loan application for Customer ID: " +:+ str_int customer_id;
           "ü§ñ Master Agent: Requested Loan Amount: Rs" +:+ format_float "," loan_amount;
           "---";
           "üîç Master Agent: Initiating KYC verification...";
           "‚ùå Verification Agent: " +:+ "Customer not found" ].
Proof.
  intros H. unfold start_simulation_with, verification_agent, get_customer_by_id.
  rewrite H. reflexivity.
Qed.

(** The transcript after an approval, by the outcome of the generator. *)
Lemma start_simulation_approved customer_id c loan_amount d :
  get_customer_by_id db customer_id = Some c ->
  underwriting_agent format_float db customer_id (PyFloat loan_amount)
    default_tenure_months = Return (Some d) ->
  d !! "status" = Some (VStr "approved") ->
  exists (narration : list string) (interest_rate tenure_months : pyval),
    d !! "interest_rate" = Some interest_rate /\
    d !! "tenure_months" = Some tenure_months /\
    start_simulation format_float sanction_letter_generator db customer_id loan_amount =
    Return (
      narration ++
      [ "‚úÖ Master Agent: Loan application has been APPROVED! üéâ";
        "üìù Master Agent: Generating sanction letter..." ] ++
      let filename :=
        sanction_letter_generator customer_id loan_amount interest_rate tenure_months
          "approved" in
      if from_option (λ s, negb (String.eqb s "")) false filename then
        [ "‚úÖ Sanction Letter Agent: PDF generated successfully!";
          "üìÑ Sanction Letter Agent: <a href='/download/" +:+ default "" filename +:+ "' target='_blank' class='pdf-link'>Download Your Sanction Letter</a>";
          "---";
          "ü§ñ Master Agent: Congratulations! Your loan has been approved. Please download your sanction letter above." ]
      else
        [ "‚ùå Sanction Letter Agent: Error generating PDF. Please contact support." ]) /\
    ~ In "‚ùå Master Agent: Loan application has been REJECTED." narration.
Proof.
  intros Hc Hd Hst.
  destruct (underwriting_agent_shape _ _ _ _ _ _ Hd)
    as [[([He|He] & _)|(_ & [rate Hr] & [tenure Ht])] [reason Hreason]]; try congruence.
  unfold start_simulation, start_simulation_with, verification_agent.
  rewrite Hc, Hd, bind_Return. unfold getitem. rewrite Hreason, Hst, Hr, Ht.
  rewrite !bind_Return.
  change (eq_str (VStr "approved") "rejected") with false.
  change (eq_str (VStr "approved") "approved") with true.
  cbv iota.
  destruct (from_option truthy false (d !! "salary_verification_required")).
  - eexists (_ :: _ :: _ :: _ :: _ :: _ :: _ :: _ :: _ :: _ :: _ :: _ :: _ :: _ :: _ :: _ :: []),
      (VFloat rate), (VInt tenure).
    split; [reflexivity|]. split; [reflexivity|]. split.
    + destruct (from_option _ false _); reflexivity.
    + intros H. no_such_line H.
  - eexists (_ :: _ :: _ :: _ :: _ :: _ :: _ :: _ :: _ :: _ :: _ :: _ :: _ :: _ :: _ :: []),
      (VFloat rate), (VInt tenure).
    split; [reflexivity|]. split; [reflexivity|]. split.
    + destruct (from_option _ false _); reflexivity.
    + intros H. no_such_line H.
Qed.

End Orchestration.

Section OrchestrationCalls.

Variable format_float : string -> float -> string.
Variable sanction_letter_generator : Z -> float -> pyval -> pyval -> string -> option string.
Variable db : database.

(** Verification of an id that binds. *)
Lemma verification_agent_call_bound customer_id :
  sqlite_integer customer_id ->
  verification_agent_call db customer_id = Return (verification_agent db customer_id).
Proof.
  intros H. unfold verification_agent_call, verification_agent.
  rewrite (get_customer_by_id_call_bound _ _ H), bind_Return.
  destruct (get_customer_by_id db customer_id); reflexivity.
Qed.

(** The transcript of a call when verification fails. *)
Lemma start_simulation_call_not_found underwriting customer_id loan_amount :
  sqlite_integer customer_id ->
  db !! customer_id = None ->
  start_simulation_call_with format_float sanction_letter_generator underwriting
    db customer_id loan_amount =
  Return [ "ü§ñ Master Agent: Hello! Welcome to Tata Capital AI Loan Processing System.";
         "ü§ñ Master Agent: Processing loan application for Customer ID: " +:+ str_int customer_id;
         "ü§ñ Master Agent: Requested Loan Amount: Rs" +:+ format_float "," loan_amount;
         "---";
         "üîç Master Agent: Initiating KYC verification...";
         "‚ùå Verification Agent: " +:+ "Customer not found" ].
Proof.
  intros Hb H. unfold start_simulation_call_with.
  rewrite (fstring_int_ok _ (int64_prints _ Hb)), bind_Return.
  rewrite (verification_agent_call_bound _ Hb), bind_Return.
  unfold verification_agent, get_customer_by_id. rewrite H. reflexivity.
Qed.

(** On a table of stored profiles, a call with an id that binds is
    [start_simulation]. *)
Lemma start_simulation_call_agrees customer_id loan_amount :
  sqlite_integer customer_id ->
  (forall c, get_customer_by_id db customer_id = Some c -> stored_profile c) ->
  start_simulation_call format_float sanction_letter_generator db customer_id loan_amount =
  start_simulation format_float sanction_letter_generator db customer_id loan_amount.
Proof.
  intros Hb Hst.
  unfold start_simulation_call, start_simulation,
    start_simulation_call_with, start_simulation_with.
  rewrite (fstring_int_ok _ (int64_prints _ Hb)), bind_Return.
  rewrite (verification_agent_call_bound _ Hb), bind_Return.
  rewrite (get_customer_by_id_call_bound _ _ Hb).
  unfold verification_agent.
  destruct (get_customer_by_id db customer_id) as [c|] eqn:Hc; [|reflexivity].
  destruct (Hst c eq_refl) as (Hcs & Hl & Hm).
  rewrite (underwriting_agent_call_agrees format_float db customer_id c);
    [| apply get_customer_by_id_call_found; auto | exact (Hst c eq_refl) | reflexivity].
  destruct (underwriting_agent format_float db customer_id (PyFloat loan_amount)
              default_tenure_months) as [r|e] eqn:Hd; [|reflexivity].
  rewrite !bind_Return.
  rewrite (fstring_int_ok _ (int64_prints _ Hcs)), bind_Return.
  rewrite (fstring_int_comma_ok _ (int64_prints _ Hl)), bind_Return.
  destruct r as [d|]; [|reflexivity].
  destruct (underwriting_agent_shape _ _ _ _ _ _ Hd) as [_ [reason Hreason]].
  rewrite (fstring_int_comma_ok _ (int64_prints _ Hm)).
  unfold getitem. rewrite Hreason.
  destruct (from_option truthy false (d !! "salary_verification_required")); reflexivity.
Qed.

End OrchestrationCalls.

(** C7 (amended). For every customer id that SQLite binds (a signed 64-bit
    integer) and that has no row in the store, verification fails with
    "Customer not found" and the evaluation stops there: the transcript ends
    with the verification failure whatever the eligibility engine would do,
    so the engine is not invoked. For every such id with a row, verification
    returns the row's name, phone and address unchanged. *)
Theorem verification_gate format_float sanction_letter_generator (db : database)
    customer_id :
  sqlite_integer customer_id ->
  (db !! customer_id = None ->
   verification_agent_call db customer_id =
     Return (VerificationError "Customer not found") /\
   forall underwriting loan_amount,
     start_simulation_call_with format_float sanction_letter_generator underwriting
       db customer_id loan_amount =
     start_simulation_call format_float sanction_letter_generator db customer_id
       loan_amount /\
     start_simulation_call format_float sanction_letter_generator db customer_id
       loan_amount =
     Return [ "ü§ñ Master Agent: Hello! Welcome to Tata Capital AI Loan Processing System.";
            "ü§ñ Master Agent: Processing loan application for Customer ID: " +:+ str_int customer_id;
            "ü§ñ Master Agent: Requested Loan Amount: Rs" +:+ format_float "," loan_amount;
            "---";
            "üîç Master Agent: Initiating KYC verification...";
            "‚ùå Verification Agent: " +:+ "Customer not found" ]) /\
  (forall row, db !! customer_id = Some row ->
   verification_agent_call db customer_id =
     Return (VerificationSuccess (row_name row)
               {| phone := row_phone row; address := row_address row |})).
Proof.
  intros Hb. split.
  - intros H. split.
    + rewrite (verification_agent_call_bound _ _ Hb).
      unfold verification_agent, get_customer_by_id. rewrite H. reflexivity.
    + intros underwriting loan_amount. unfold start_simulation_call.
      rewrite !start_simulation_call_not_found by assumption. split; reflexivity.
  - intros row H. rewrite (verification_agent_call_bound _ _ Hb).
    unfold verification_agent, get_customer_by_id. rewrite H. reflexivity.
Qed.

(** Scenario E of the specification: id 7 is not in the default store, even
    for an engine that always raises; id 3 is. *)
Lemma verification_gate_scenario_E :
  (verification_agent_call default_customers 7 =
     Return (VerificationError "Customer not found") /\
   start_simulation_call_with sample_format sample_generator (λ _ _, Raise KeyError)
     default_customers 7 450000 =
   Return [ "ü§ñ Master Agent: Hello! Welcome to Tata Capital AI Loan Processing System.";
          "ü§ñ Master Agent: Processing loan application for Customer ID: " +:+ "7";
          "ü§ñ Master Agent: Requested Loan Amount: Rs" +:+ "<float>";
          "---";
          "üîç Master Agent: Initiating KYC verification...";
          "‚ùå Verification Agent: " +:+ "Customer not found" ]) /\
  verification_agent_call default_customers 3 =
    Return (VerificationSuccess "Amit Patel"
              {| phone := "+91-9988776655";
                 address := "789 Marine Drive, Mumbai, Maharashtra - 400020" |}).
Proof.
  assert (H7 : sqlite_integer 7) by (unfold sqlite_integer; lia).
  assert (H3 : sqlite_integer 3) by (unfold sqlite_integer; lia).
  pose proof (verification_gate sample_format sample_generator default_customers 7 H7)
    as [G7 _].
  pose proof (verification_gate sample_format sample_generator default_customers 3 H3)
    as [_ G3].
  specialize (G7 eq_refl) as [Hv Hs].
  destruct (Hs (λ _ _, Raise KeyError) 450000%float) as [E1 E2].
  split; [split|].
  - exact Hv.
  - rewrite E1. exact E2.
  - exact (G3 _ eq_refl).
Defined.

(** C7 as stated fails: the id 2^63 has no row in the default store, yet
    verification does not answer "Customer not found": sqlite3 cannot bind
    the id, the lookup raises OverflowError, and so does the evaluation. *)
Lemma verification_gate_unbound_id_raises :
  default_customers !! (2 ^ 63) = None /\
  verification_agent_call default_customers (2 ^ 63) = Raise OverflowError /\
  verification_agent_call default_customers (2 ^ 63) <>
    Return (VerificationError "Customer not found") /\
  start_simulation_call sample_format sample_generator default_customers (2 ^ 63) 450000 =
    Raise OverflowError.
Proof.
  split; [vm_compute; reflexivity|].
  split; [vm_compute; reflexivity|].
  split; [vm_compute; discriminate|].
  vm_compute; reflexivity.
Qed.

(** C9. For every evaluation that ends approved, a failure of the document
    generator (no file name, or an empty one) does not retract the
    approval: the transcript ends with the approval line, the line that
    announces the generation and the generator's own error line, in this
    order, and has no rejection line. *)
Theorem generation_failure_keeps_approval format_float sanction_letter_generator
    (db : database) customer_id c loan_amount d :
  get_customer_by_id db customer_id = Some c ->
  underwriting_agent format_float db customer_id (PyFloat loan_amount)
    default_tenure_months = Return (Some d) ->
  d !! "status" = Some (VStr "approved") ->
  (forall interest_rate tenure_months,
     d !! "interest_rate" = Some interest_rate ->
     d !! "tenure_months" = Some tenure_months ->
     from_option (λ s, negb (String.eqb s "")) false
       (sanction_letter_generator customer_id loan_amount interest_rate tenure_months
          "approved") = false) ->
  exists narration : list string,
    start_simulation format_float sanction_letter_generator db customer_id loan_amount =
    Return (narration ++
            [ "‚úÖ Master Agent: Loan application has been APPROVED! üéâ";
              "üìù Master Agent: Generating sanction letter...";
              "‚ùå Sanction Letter Agent: Error generating PDF. Please contact support." ]) /\
    ~ In "‚ùå Master Agent: Loan application has been REJECTED."
        (narration ++
         [ "‚úÖ Master Agent: Loan application has been APPROVED! üéâ";
           "üìù Master Agent: Generating sanction letter...";
           "‚ùå Sanction Letter Agent: Error generating PDF. Please contact support." ]).
Proof.
  intros Hc Hd Hst Hgen.
  destruct (start_simulation_approved format_float sanction_letter_generator db
              customer_id c loan_amount d Hc Hd Hst)
    as (narration & rate & tenure & Hr & Ht & E & Hno).
  exists narration. cbv zeta in E. rewrite (Hgen _ _ Hr Ht) in E. split; [exact E|].
  intros H. apply in_app_or in H as [H|H]; [exact (Hno H)|].
  no_such_line H.
Qed.

(** Scenario A with a generator that fails. *)
Lemma generation_failure_keeps_approval_scenario_A :
  exists narration : list string,
    start_simulation sample_format failing_generator default_customers 1 500000 =
    Return (narration ++
            [ "‚úÖ Master Agent: Loan application has been APPROVED! üéâ";
              "üìù Master Agent: Generating sanction letter...";
              "‚ùå Sanction Letter Agent: Error generating PDF. Please contact support." ]) /\
    ~ In "‚ùå Master Agent: Loan application has been REJECTED."
        (narration ++
         [ "‚úÖ Master Agent: Loan application has been APPROVED! üéâ";
           "üìù Master Agent: Generating sanction letter...";
           "‚ùå Sanction Letter Agent: Error generating PDF. Please contact support." ]).
Proof.
  apply (generation_failure_keeps_approval sample_format failing_generator default_customers 1
           (Customer 1 "Rajesh Kumar"
              (Kyc "+91-9876543210" "123 MG Road, Bangalore, Karnataka - 560001")
              750 500000 80000)
           500000
           {[ "status" := VStr "approved";
              "reason" := VStr "Loan amount (Rs<float>) is within pre-approved limit (Rs500,000)";
              "interest_rate" := VFloat 10.5;
              "tenure_months" := VInt 60 ]}).
  - reflexivity.
  - vm_compute; reflexivity.
  - reflexivity.
  - reflexivity.
Defined.

(** C6 (the server misses the check). The page refuses an amount below
    10000 and offers no credit score outside 300-900; the server repeats
    neither check and has no InvalidInput error. A zero amount (the default
    of a request without [loan_amount]) is not refused before the rules run
    but approved by the within-limit rule, and the transcript narrates the
    approval; a credit score of 950 is evaluated, and passes the credit
    floor. *)
Lemma zero_amount_is_approved :
  num_le (PyFloat 0) 0 = true /\
  underwriting_agent sample_format default_customers 1 (PyFloat 0) default_tenure_months =
    Return (Some {[
      "status" := VStr "approved";
      "reason" := VStr "Loan amount (Rs<float>) is within pre-approved limit (Rs500,000)";
      "interest_rate" := VFloat 10.5;
      "tenure_months" := VInt 60 ]}) /\
  start_simulation sample_format sample_generator default_customers 1 0 =
    Return [ "ü§ñ Master Agent: Hello! Welcome to Tata Capital AI Loan Processing System.";
             "ü§ñ Master Agent: Processing loan application for Customer ID: " +:+ "1";
             "ü§ñ Master Agent: Requested Loan Amount: Rs" +:+ "<float>";
             "---";
             "üîç Master Agent: Initiating KYC verification...";
             "‚úÖ Verification Agent: KYC verification successful!";
             "üìã Verification Agent: Customer Name - " +:+ "Rajesh Kumar";
             "üìã Verification Agent: Phone - " +:+ "+91-9876543210";
             "üìã Verification Agent: Address - " +:+ "123 MG Road, Bangalore, Karnataka - 560001";
             "---";
             "üìä Master Agent: Forwarding to Underwriting Agent for credit assessment...";
             "üí≥ Underwriting Agent: Credit Score - " +:+ "750";
             "üí∞ Underwriting Agent: Pre-approved Limit - Rs" +:+ "500,000";
             "üîé Underwriting Agent: " +:+ "Loan amount (Rs<float>) is within pre-approved limit (Rs500,000)";
             "---";
             "‚úÖ Master Agent: Loan application has been APPROVED! üéâ";
             "üìù Master Agent: Generating sanction letter...";
             "‚úÖ Sanction Letter Agent: PDF generated successfully!";
             "üìÑ Sanction Letter Agent: <a href='/download/" +:+ "Sanction_Letter_1.pdf" +:+ "' target='_blank' class='pdf-link'>Download Your Sanction Letter</a>";
             "---";
             "ü§ñ Master Agent: Congratulations! Your loan has been approved. Please download your sanction letter above." ] /\
  900 < 950 /\
  underwriting_agent sample_format
    {[ 4 := CustomerRow "N. Rao" "+91-9000000000" "Pune" 950 100000 40000 ]}
    4 (PyInt 50000) 60 =
    Return (Some {[
      "status" := VStr "approved";
      "reason" := VStr "Loan amount (Rs50,000) is within pre-approved limit (Rs100,000)";
      "interest_rate" := VFloat 10.5;
      "tenure_months" := VInt 60 ]}).
Proof.
  split; [vm_compute; reflexivity|].
  split; [vm_compute; reflexivity|].
  split; [vm_compute; reflexivity|].
  split; [lia | vm_compute; reflexivity].
Qed.

(** * The customer store *)

(** ** Rowids *)

Section Rowids.

Implicit Types (t : database) (file : sqlite_file) (row : customer_row).

Lemma max_of_keys_bound (keys : list Z) k :
  k ∈ keys ->
  exists m, foldr (λ k acc, Some (from_option (Z.max k) k acc)) None keys = Some m /\ k <= m.
Proof.
  induction keys as [|k' keys IH]; intros Hk; [by apply elem_of_nil in Hk|].
  simpl. apply elem_of_cons in Hk as [->|Hk].
  - eexists; split; [reflexivity|].
    destruct (foldr _ None keys); simpl; lia.
  - destruct (IH Hk) as (m & -> & Hm). eexists; split; [reflexivity|]. simpl. lia.
Qed.

Lemma max_rowid_bound t k row :
  t !! k = Some row -> exists m, max_rowid t = Some m /\ k <= m.
Proof.
  intros H. apply max_of_keys_bound.
  apply list_elem_of_fmap. exists (k, row). split; [reflexivity|].
  by apply elem_of_map_to_list.
Qed.

Lemma max_rowid_empty : max_rowid ∅ = None.
Proof. unfold max_rowid. rewrite map_to_list_empty. reflexivity. Qed.

(** The next rowid is above every rowid present and above the counter. *)
Lemma new_rowid_above file v :
  new_rowid file = Some v ->
  (forall k row, table file !! k = Some row -> k < v) /\ sequence file < v.
Proof.
  unfold new_rowid. intros H.
  destruct (max_rowid (table file)) as [m|] eqn:Em.
  - destruct (Z.leb_spec MAX_ROWID m); [discriminate|].
    destruct (Z.eqb_spec (sequence file) MAX_ROWID); [discriminate|].
    injection H as <-. split; [|lia].
    intros k row Hk. destruct (max_rowid_bound _ _ _ Hk) as (m' & Em' & Hle).
    rewrite Em in Em'. injection Em' as <-. lia.
  - destruct (Z.eqb_spec (sequence file) MAX_ROWID); [discriminate|].
    injection H as <-. split; [|lia].
    intros k row Hk. destruct (max_rowid_bound _ _ _ Hk) as (m' & Em' & _). congruence.
Qed.

Lemma binds_spec z : binds z = true <-> sqlite_integer z.
Proof.
  unfold binds, sqlite_integer. rewrite andb_true_iff, Z.leb_le, Z.ltb_lt. reflexivity.
Qed.

(** What a successful insert did. *)
Lemma insert_customer_inr row file v file' :
  insert_customer row file = inr (v, file') ->
  new_rowid file = Some v /\
  file' = {| table := <[v := row]> (table file); sequence := v |} /\
  sqlite_integer (row_credit_score row) /\
  sqlite_integer (row_pre_approved_limit row) /\
  sqlite_integer (row_monthly_salary row).
Proof.
  unfold insert_customer.
  destruct (binds (row_credit_score row)) eqn:B1; [|discriminate].
  destruct (binds (row_pre_approved_limit row)) eqn:B2; [|discriminate].
  destruct (binds (row_monthly_salary row)) eqn:B3; [|discriminate].
  simpl. destruct (new_rowid file) as [v'|]; [|discriminate].
  intros [= <- <-]. rewrite <- !binds_spec. auto.
Qed.

Lemma add_customer_to_db_inr name phone address credit_score pre_approved_limit
    monthly_salary file customer_id file' :
  add_customer_to_db name phone address credit_score pre_approved_limit monthly_salary file =
    (inr customer_id, file') ->
  insert_customer
    (CustomerRow name phone address credit_score pre_approved_limit monthly_salary) file =
    inr (customer_id, file').
Proof.
  unfold add_customer_to_db.
  destruct (insert_customer _ file) as [e|[v f]]; intros [= <- <-]; reflexivity.
Qed.

End Rowids.

(** ** Adding and fetching customers *)

Lemma insert_then_get row file v file' :
  insert_customer row file = inr (v, file') ->
  get_customer_by_id (table file') v =
    Some {| id := v; name := row_name row;
            kyc_details := {| phone := row_phone row; address := row_address row |};
            credit_score := row_credit_score row;
            pre_approved_limit := row_pre_approved_limit row;
            monthly_salary := row_monthly_salary row |}.
Proof.
  intros H. apply insert_customer_inr in H as (_ & -> & _).
  unfold get_customer_by_id. simpl. rewrite lookup_insert_eq. reflexivity.
Qed.

Lemma insert_frames row file v file' :
  insert_customer row file = inr (v, file') ->
  table file !! v = None /\
  (forall other row', table file !! other = Some row' -> other < v) /\
  sequence file < v /\
  sequence file' = v /\
  (forall other, other <> v ->
     get_customer_by_id (table file') other = get_customer_by_id (table file) other).
Proof.
  intros H. apply insert_customer_inr in H as (Hv & -> & _).
  apply new_rowid_above in Hv as [Hkeys Hseq]. simpl.
  assert (Hnone : table file !! v = None).
  { destruct (table file !! v) as [row'|] eqn:E; [|reflexivity].
    apply Hkeys in E. lia. }
  repeat split; try assumption.
  intros other Hne. unfold get_customer_by_id. rewrite lookup_insert_ne by congruence.
  reflexivity.
Qed.

(** A transaction of inserts only moves the counter up, and keeps the rows
    at or below the counter it started from. *)
Lemma insert_customers_keeps rows file file' :
  insert_customers rows file = inr file' ->
  sequence file <= sequence file' /\
  forall k, k <= sequence file ->
    get_customer_by_id (table file') k = get_customer_by_id (table file) k.
Proof.
  revert file. induction rows as [|row rows IH]; intros file Hf; simpl in Hf.
  - injection Hf as <-. split; [lia | reflexivity].
  - destruct (insert_customer row file) as [e|[v g]] eqn:E; [discriminate|].
    destruct (insert_frames _ _ _ _ E) as (_ & _ & Hseq & Hs & Hframe).
    destruct (IH _ Hf) as [Hle Hsame]. split; [lia|].
    intros k Hk. rewrite Hsame by lia. apply Hframe. lia.
Qed.

(** X1. A customer that [add_customer_to_db] has stored is fetched back
    whole: [get_customer_by_id] at the id returned gives the name, phone,
    address, credit score, limit and salary that were passed, and
    verification succeeds for that id. *)
Theorem add_then_get name phone address credit_score pre_approved_limit monthly_salary
    file customer_id file' :
  add_customer_to_db name phone address credit_score pre_approved_limit monthly_salary file =
    (inr customer_id, file') ->
  get_customer_by_id (table file') customer_id =
    Some {| id := customer_id; name := name;
            kyc_details := {| phone := phone; address := address |};
            credit_score := credit_score;
            pre_approved_limit := pre_approved_limit;
            monthly_salary := monthly_salary |} /\
  verification_agent (table file') customer_id =
    VerificationSuccess name {| phone := phone; address := address |}.
Proof.
  intros H. apply add_customer_to_db_inr, insert_then_get in H. simpl in H.
  unfold verification_agent. rewrite H. split; reflexivity.
Qed.

(** A fourth customer after the three defaults. *)
Lemma add_then_get_fourth :
  get_customer_by_id
    (<[4 := CustomerRow "N. Rao" "+91-9000000000" "Pune" 710 150000 60000]> default_customers) 4 =
    Some {| id := 4; name := "N. Rao";
            kyc_details := {| phone := "+91-9000000000"; address := "Pune" |};
            credit_score := 710; pre_approved_limit := 150000; monthly_salary := 60000 |} /\
  verification_agent
    (<[4 := CustomerRow "N. Rao" "+91-9000000000" "Pune" 710 150000 60000]> default_customers) 4 =
    VerificationSuccess "N. Rao" {| phone := "+91-9000000000"; address := "Pune" |}.
Proof.
  refine (add_then_get "N. Rao" "+91-9000000000" "Pune" 710 150000 60000
           {| table := default_customers; sequence := 3 |} 4
           {| table := <[4 := CustomerRow "N. Rao" "+91-9000000000" "Pune" 710 150000 60000]>
                         default_customers;
              sequence := 4 |} _).
  vm_compute; reflexivity.
Defined.

(** X2. [add_customer_to_db] gives the new customer an id that no row has
    and that is above every id in the table and above every id the table
    ever gave out; every other customer is fetched as before, and the table
    has one row more. *)
Theorem add_is_fresh_and_frames name phone address credit_score pre_approved_limit
    monthly_salary file customer_id file' :
  add_customer_to_db name phone address credit_score pre_approved_limit monthly_salary file =
    (inr customer_id, file') ->
  table file !! customer_id = None /\
  (forall other, is_Some (table file !! other) -> other < customer_id) /\
  sequence file < customer_id /\
  sequence file' = customer_id /\
  (forall other, other <> customer_id ->
     get_customer_by_id (table file') other = get_customer_by_id (table file) other) /\
  size (table file') = S (size (table file)).
Proof.
  intros H. apply add_customer_to_db_inr in H.
  destruct (insert_frames _ _ _ _ H) as (Hnone & Hkeys & Hseq & Hs & Hframe).
  apply insert_customer_inr in H as (_ & E & _).
  repeat split; try assumption.
  - intros other [row Hrow]. eapply Hkeys, Hrow.
  - rewrite E. simpl. apply map_size_insert_None, Hnone.
Qed.

Lemma add_is_fresh_and_frames_fourth :
  default_customers !! 4 = None /\
  (forall other, is_Some (default_customers !! other) -> other < 4) /\
  3 < 4 /\
  4 = 4 /\
  (forall other, other <> 4 ->
     get_customer_by_id
       (<[4 := CustomerRow "N. Rao" "+91-9000000000" "Pune" 710 150000 60000]> default_customers)
       other = get_customer_by_id default_customers other) /\
  size (<[4 := CustomerRow "N. Rao" "+91-9000000000" "Pune" 710 150000 60000]> default_customers) =
    S (size default_customers).
Proof.
  refine (add_is_fresh_and_frames "N. Rao" "+91-9000000000" "Pune" 710 150000 60000
           {| table := default_customers; sequence := 3 |} 4
           {| table := <[4 := CustomerRow "N. Rao" "+91-9000000000" "Pune" 710 150000 60000]>
                         default_customers;
              sequence := 4 |} _).
  vm_compute; reflexivity.
Defined.

Lemma init_db_Some file :
  init_db (Some file) =
  if (size (table file) =? 0)%nat then
    match insert_customers default_rows file with
    | inl e => (Some e, file)
    | inr file' => (None, file')
    end
  else (None, file).
Proof. reflexivity. Qed.

(** The rows at or below the counter stay as they are while the file grows. *)
Lemma grows_keeps file file' :
  grows file file' ->
  sequence file <= sequence file' /\
  forall k, k <= sequence file ->
    get_customer_by_id (table file') k = get_customer_by_id (table file) k.
Proof.
  induction 1 as [file|file file' file'' _ [IHs IHk] Hinit
                 |file file' file'' name phone address cs lim sal cid _ [IHs IHk] Hadd].
  - split; [lia | reflexivity].
  - rewrite init_db_Some in Hinit.
    destruct (size (table file') =? 0)%nat.
    + destruct (insert_customers default_rows file') as [e|g] eqn:E; [discriminate|].
      injection Hinit as <-. destruct (insert_customers_keeps _ _ _ E) as [Hle Hsame].
      split; [lia|]. intros k Hk. rewrite Hsame by lia. apply IHk, Hk.
    + injection Hinit as <-. split; assumption.
  - apply add_customer_to_db_inr in Hadd.
    destruct (insert_frames _ _ _ _ Hadd) as (_ & _ & Hseq & Hs & Hframe).
    split; [lia|]. intros k Hk. rewrite Hframe by lia. apply IHk, Hk.
Qed.

(** X3. A customer, once added, stays: however the file grows afterwards
    (further customers added, [init_db] run again), the customer is fetched
    under the same id with the same fields, and every customer added later
    gets a larger id, so ids are never given twice. *)
Theorem added_customer_stays name1 phone1 address1 credit_score1 limit1 salary1
    name2 phone2 address2 credit_score2 limit2 salary2
    file id1 file1 file2 id2 file3 :
  add_customer_to_db name1 phone1 address1 credit_score1 limit1 salary1 file =
    (inr id1, file1) ->
  grows file1 file2 ->
  add_customer_to_db name2 phone2 address2 credit_score2 limit2 salary2 file2 =
    (inr id2, file3) ->
  id1 < id2 /\
  get_customer_by_id (table file2) id1 =
    Some {| id := id1; name := name1;
            kyc_details := {| phone := phone1; address := address1 |};
            credit_score := credit_score1;
            pre_approved_limit := limit1;
            monthly_salary := salary1 |} /\
  get_customer_by_id (table file3) id1 = get_customer_by_id (table file2) id1.
Proof.
  intros H1 Hg H2.
  apply add_customer_to_db_inr in H1, H2.
  pose proof (insert_then_get _ _ _ _ H1) as Hget. simpl in Hget.
  destruct (insert_frames _ _ _ _ H1) as (_ & _ & _ & Hs1 & _).
  destruct (insert_frames _ _ _ _ H2) as (_ & _ & Hs2 & _ & Hframe).
  destruct (grows_keeps _ _ Hg) as [Hle Hsame].
  split; [lia|]. split.
  - rewrite Hsame by lia. exact Hget.
  - apply Hframe. lia.
Qed.

(** Two customers added to the default store, [init_db] run in between. *)
Lemma added_customer_stays_fourth_fifth :
  4 < 5 /\
  get_customer_by_id
    (<[4 := CustomerRow "N. Rao" "+91-9000000000" "Pune" 710 150000 60000]> default_customers) 4 =
    Some {| id := 4; name := "N. Rao";
            kyc_details := {| phone := "+91-9000000000"; address := "Pune" |};
            credit_score := 710; pre_approved_limit := 150000; monthly_salary := 60000 |} /\
  get_customer_by_id
    (<[5 := CustomerRow "S. Iyer" "+91-9111111111" "Chennai" 800 900000 200000]>
       (<[4 := CustomerRow "N. Rao" "+91-9000000000" "Pune" 710 150000 60000]>
          default_customers)) 4 =
  get_customer_by_id
    (<[4 := CustomerRow "N. Rao" "+91-9000000000" "Pune" 710 150000 60000]> default_customers) 4.
Proof.
  pose (file1 := {| table := <[4 := CustomerRow "N. Rao" "+91-9000000000" "Pune"
                                       710 150000 60000]> default_customers;
                    sequence := 4 |}).
  refine (added_customer_stays "N. Rao" "+91-9000000000" "Pune" 710 150000 60000
            "S. Iyer" "+91-9111111111" "Chennai" 800 900000 200000
            {| table := default_customers; sequence := 3 |} 4 file1 file1 5
            {| table := <[5 := CustomerRow "S. Iyer" "+91-9111111111" "Chennai"
                                   800 900000 200000]> (table file1);
               sequence := 5 |} _ _ _).
  - vm_compute; reflexivity.
  - apply (grows_restart file1 file1 file1); [apply grows_refl | vm_compute; reflexivity].
  - vm_compute; reflexivity.
Defined.

(** [add_customer_to_db] refuses an int that does not fit SQLite's 64-bit
    INTEGER with OverflowError, whatever the other arguments; every failure
    leaves the file as it was; and the call succeeds exactly when the three
    ints fit and a rowid is left. *)
Theorem add_fails_cleanly name phone address credit_score pre_approved_limit
    monthly_salary file :
  (~ (sqlite_integer credit_score /\ sqlite_integer pre_approved_limit /\
      sqlite_integer monthly_salary) ->
   add_customer_to_db name phone address credit_score pre_approved_limit monthly_salary file =
     (inl IntTooLarge, file)) /\
  (forall e file',
     add_customer_to_db name phone address credit_score pre_approved_limit monthly_salary file =
       (inl e, file') -> file' = file) /\
  ((exists customer_id file',
      add_customer_to_db name phone address credit_score pre_approved_limit monthly_salary
        file = (inr customer_id, file')) <->
   sqlite_integer credit_score /\ sqlite_integer pre_approved_limit /\
   sqlite_integer monthly_salary /\ new_rowid file <> None).
Proof.
  split; [|split; [|split]].
  - intros Hn. unfold add_customer_to_db, insert_customer. simpl.
    destruct (binds credit_score) eqn:B1, (binds pre_approved_limit) eqn:B2,
             (binds monthly_salary) eqn:B3; try reflexivity.
    exfalso. apply Hn. rewrite <- !binds_spec. auto.
  - intros e file'. unfold add_customer_to_db.
    destruct (insert_customer _ file) as [e'|[v g]]; [|discriminate].
    intros [= _ <-]. reflexivity.
  - intros (customer_id & file' & H).
    apply add_customer_to_db_inr, insert_customer_inr in H as (Hv & _ & S1 & S2 & S3).
    simpl in S1, S2, S3. split; [exact S1|]. split; [exact S2|]. split; [exact S3|].
    rewrite Hv. discriminate.
  - intros (S1 & S2 & S3 & Hv). unfold add_customer_to_db, insert_customer. simpl.
    rewrite (proj2 (binds_spec _) S1), (proj2 (binds_spec _) S2), (proj2 (binds_spec _) S3).
    simpl. destruct (new_rowid file) as [v|]; [eauto | congruence].
Qed.

(** A salary of [2^63] does not fit. *)
Lemma add_fails_cleanly_wide_salary :
  add_customer_to_db "N. Rao" "+91-9000000000" "Pune" 710 150000 (2 ^ 63)
    {| table := default_customers; sequence := 3 |} =
  (inl IntTooLarge, {| table := default_customers; sequence := 3 |}).
Proof.
  apply (proj1 (add_fails_cleanly "N. Rao" "+91-9000000000" "Pune" 710 150000 (2 ^ 63)
                  {| table := default_customers; sequence := 3 |})).
  unfold sqlite_integer. lia.
Defined.

(** ** Initialisation *)

Lemma insert_customers_nonempty row rows file file' :
  insert_customers (row :: rows) file = inr file' -> table file' <> ∅.
Proof.
  simpl. destruct (insert_customer row file) as [e|[v g]] eqn:E; [discriminate|].
  intros Hf Hempty.
  pose proof (insert_then_get _ _ _ _ E) as Hget.
  destruct (insert_frames _ _ _ _ E) as (_ & _ & _ & Hs & _).
  destruct (insert_customers_keeps _ _ _ Hf) as [_ Hsame].
  rewrite <- (Hsame v) in Hget by lia.
  unfold get_customer_by_id in Hget. rewrite Hempty, lookup_empty in Hget. discriminate.
Qed.

Lemma size_eqb_0 (t : database) : (size t =? 0)%nat = true <-> t = ∅.
Proof. rewrite Nat.eqb_eq. apply map_size_empty_iff. Qed.

(** X5. [init_db] only ever fills an empty table: a table that has a row is
    left exactly as it is, so running [init_db] again after it succeeded
    changes nothing; on a new file it stores the three default customers
    under the ids 1, 2 and 3. *)
Theorem init_db_once file file1 :
  init_db file = (None, file1) ->
  table file1 <> ∅ /\
  init_db (Some file1) = (None, file1) /\
  (forall file2, table file2 <> ∅ -> init_db (Some file2) = (None, file2)) /\
  init_db None = (None, {| table := default_customers; sequence := 3 |}).
Proof.
  intros H.
  assert (Hkeep : forall file2, table file2 <> ∅ -> init_db (Some file2) = (None, file2)).
  { intros file2 Hne. rewrite init_db_Some.
    destruct (size (table file2) =? 0)%nat eqn:E; [|reflexivity].
    apply size_eqb_0 in E. contradiction. }
  assert (Hne : table file1 <> ∅).
  { unfold init_db in H. cbv zeta in H.
    destruct (size (table (default _ file)) =? 0)%nat eqn:E.
    - destruct (insert_customers default_rows _) as [e|g] eqn:Ei; [discriminate|].
      injection H as <-. eapply insert_customers_nonempty, Ei.
    - injection H as <-. intros He. apply size_eqb_0 in He. congruence. }
  split; [exact Hne|]. split; [apply Hkeep, Hne|]. split; [exact Hkeep|].
  vm_compute; reflexivity.
Qed.

(** The application's first start. *)
Lemma init_db_once_first_start :
  default_customers <> ∅ /\
  init_db (Some {| table := default_customers; sequence := 3 |}) =
    (None, {| table := default_customers; sequence := 3 |}) /\
  (forall file2, table file2 <> ∅ -> init_db (Some file2) = (None, file2)) /\
  init_db None = (None, {| table := default_customers; sequence := 3 |}).
Proof.
  refine (init_db_once None {| table := default_customers; sequence := 3 |} _).
  vm_compute; reflexivity.
Defined.

(** ** What holds of every file the application produces *)

Lemma insert_customer_fits row file v file' :
  insert_customer row file = inr (v, file') -> rows_fit (table file) -> rows_fit (table file').
Proof.
  intros H Hfit. apply insert_customer_inr in H as (_ & -> & S). simpl.
  apply map_Forall_insert_2; assumption.
Qed.

Lemma insert_customers_fit rows file file' :
  insert_customers rows file = inr file' -> rows_fit (table file) -> rows_fit (table file').
Proof.
  revert file. induction rows as [|row rows IH]; intros file H Hfit; simpl in H.
  - injection H as <-. exact Hfit.
  - destruct (insert_customer row file) as [e|[v g]] eqn:E; [discriminate|].
    eapply IH; [exact H|]. eapply insert_customer_fits; eassumption.
Qed.

Lemma init_db_fits file file' :
  init_db file = (None, file') ->
  rows_fit (table (default {| table := ∅; sequence := 0 |} file)) -> rows_fit (table file').
Proof.
  unfold init_db. cbv zeta. intros H Hfit.
  destruct (size (table (default _ file)) =? 0)%nat.
  - destruct (insert_customers default_rows _) as [e|g] eqn:E; [discriminate|].
    injection H as <-. eapply insert_customers_fit; eassumption.
  - injection H as <-. exact Hfit.
Qed.

Lemma reachable_fits file : reachable file -> rows_fit (table file).
Proof.
  induction 1 as [file Hinit|file file' _ IH Hinit
                 |file file' name phone address cs lim sal cid _ IH Hadd].
  - apply (init_db_fits None _ Hinit). simpl. apply map_Forall_empty.
  - apply (init_db_fits (Some file) _ Hinit). exact IH.
  - apply add_customer_to_db_inr in Hadd. eapply insert_customer_fits; eassumption.
Qed.

(** X6. Every profile the application can have stored holds 64-bit
    integers: in any file produced by [init_db] and [add_customer_to_db],
    whatever [get_customer_by_id] returns is a stored profile. *)
Theorem reachable_profiles_are_stored file customer_id c :
  reachable file ->
  get_customer_by_id (table file) customer_id = Some c ->
  stored_profile c.
Proof.
  intros Hr Hc. apply reachable_fits in Hr. unfold get_customer_by_id in Hc.
  destruct (table file !! customer_id) as [row|] eqn:E; [|discriminate].
  injection Hc as <-. exact (Hr _ _ E).
Qed.

Lemma reachable_profiles_are_stored_default :
  stored_profile
    (Customer 3 "Amit Patel"
       (Kyc "+91-9988776655" "789 Marine Drive, Mumbai, Maharashtra - 400020")
       720 300000 120000).
Proof.
  refine (reachable_profiles_are_stored {| table := default_customers; sequence := 3 |} 3 _ _ _).
  - apply reachable_init. vm_compute; reflexivity.
  - reflexivity.
Defined.

Lemma max_of_keys_is_key (keys : list Z) m :
  foldr (λ k acc, Some (from_option (Z.max k) k acc)) None keys = Some m -> m ∈ keys.
Proof.
  revert m. induction keys as [|k keys IH]; intros m; simpl; [discriminate|].
  intros [= <-]. destruct (foldr _ None keys) as [m'|]; simpl.
  - destruct (Z.max_spec k m') as [[_ ->]|[_ ->]].
    + right. apply IH. reflexivity.
    + left.
  - left.
Qed.

Lemma max_rowid_is_key t m : max_rowid t = Some m -> is_Some (t !! m).
Proof.
  intros H. apply max_of_keys_is_key in H.
  apply list_elem_of_fmap in H as ([k row] & -> & H).
  apply elem_of_map_to_list in H. simpl. eauto.
Qed.

(** In a dense table the next rowid is the counter plus one. *)
Lemma new_rowid_dense file v :
  ids_are_dense file -> new_rowid file = Some v -> v = sequence file + 1.
Proof.
  intros [H0 Hd] Hv. pose proof (new_rowid_above _ _ Hv) as [_ Hseq].
  unfold new_rowid in Hv. destruct (max_rowid (table file)) as [m|] eqn:Em.
  - apply max_rowid_is_key, Hd in Em.
    destruct (MAX_ROWID <=? m); [discriminate|].
    destruct (sequence file =? MAX_ROWID); [discriminate|].
    injection Hv as <-. lia.
  - destruct (sequence file =? MAX_ROWID); [discriminate|].
    injection Hv as <-. lia.
Qed.

Lemma insert_customer_dense row file v file' :
  insert_customer row file = inr (v, file') -> ids_are_dense file -> ids_are_dense file'.
Proof.
  intros H Hd. apply insert_customer_inr in H as (Hv & -> & _).
  pose proof (new_rowid_dense _ _ Hd Hv) as ->. destruct Hd as [H0 Hd].
  split; simpl; [lia|]. intros k. rewrite lookup_insert_is_Some, Hd. lia.
Qed.

Lemma insert_customers_dense rows file file' :
  insert_customers rows file = inr file' -> ids_are_dense file -> ids_are_dense file'.
Proof.
  revert file. induction rows as [|row rows IH]; intros file H Hd; simpl in H.
  - injection H as <-. exact Hd.
  - destruct (insert_customer row file) as [e|[v g]] eqn:E; [discriminate|].
    eapply IH; [exact H|]. eapply insert_customer_dense; eassumption.
Qed.

Lemma init_db_dense file file' :
  init_db file = (None, file') ->
  ids_are_dense (default {| table := ∅; sequence := 0 |} file) -> ids_are_dense file'.
Proof.
  unfold init_db. cbv zeta. intros H Hd.
  destruct (size (table (default _ file)) =? 0)%nat.
  - destruct (insert_customers default_rows _) as [e|g] eqn:E; [discriminate|].
    injection H as <-. eapply insert_customers_dense; eassumption.
  - injection H as <-. exact Hd.
Qed.

Lemma reachable_dense file : reachable file -> ids_are_dense file.
Proof.
  induction 1 as [file Hinit|file file' _ IH Hinit
                 |file file' name phone address cs lim sal cid _ IH Hadd].
  - apply (init_db_dense None _ Hinit). split; simpl; [lia|].
    intros k. rewrite lookup_empty. split; [intros [? [=]] | lia].
  - apply (init_db_dense (Some file) _ Hinit). exact IH.
  - apply add_customer_to_db_inr in Hadd. eapply insert_customer_dense; eassumption.
Qed.

Lemma reachable_grows file :
  reachable file -> grows {| table := default_customers; sequence := 3 |} file.
Proof.
  induction 1 as [file Hinit|file file' _ IH Hinit
                 |file file' name phone address cs lim sal cid _ IH Hadd].
  - assert (E : init_db None = (None, {| table := default_customers; sequence := 3 |}))
      by (vm_compute; reflexivity).
    rewrite E in Hinit. injection Hinit as <-. apply grows_refl.
  - eapply grows_restart; eassumption.
  - eapply grows_add; eassumption.
Qed.

(** X7. In every file the application produces, the customer ids are
    exactly 1, 2, ..., n with n the number of customers, at least the three
    default ones, which are still fetched with the data [init_db] gave them;
    and the next customer added gets the id n + 1. *)
Theorem reachable_ids_are_dense file :
  reachable file ->
  (forall customer_id,
     is_Some (get_customer_by_id (table file) customer_id) <->
     1 <= customer_id <= sequence file) /\
  3 <= sequence file /\
  (forall customer_id, customer_id <= 3 ->
     get_customer_by_id (table file) customer_id =
     get_customer_by_id default_customers customer_id) /\
  (forall name phone address credit_score pre_approved_limit monthly_salary customer_id file',
     add_customer_to_db name phone address credit_score pre_approved_limit monthly_salary
       file = (inr customer_id, file') ->
     customer_id = sequence file + 1).
Proof.
  intros Hr. pose proof (reachable_dense _ Hr) as Hd.
  destruct (grows_keeps _ _ (reachable_grows _ Hr)) as [Hseq Hsame]. simpl in *.
  split; [|split; [exact Hseq|split; [exact Hsame|]]].
  - intros customer_id. destruct Hd as [_ Hd]. rewrite <- Hd.
    unfold get_customer_by_id. destruct (table file !! customer_id); split;
      intros [? H]; try discriminate H; eauto.
  - intros name phone address cs lim sal customer_id file' Hadd.
    apply add_customer_to_db_inr, insert_customer_inr in Hadd as (Hv & _).
    apply new_rowid_dense; assumption.
Qed.

Lemma reachable_ids_are_dense_default :
  (forall customer_id,
     is_Some (get_customer_by_id default_customers customer_id) <-> 1 <= customer_id <= 3) /\
  3 <= 3 /\
  (forall customer_id, customer_id <= 3 ->
     get_customer_by_id default_customers customer_id =
     get_customer_by_id default_customers customer_id) /\
  (forall name phone address credit_score pre_approved_limit monthly_salary customer_id file',
     add_customer_to_db name phone address credit_score pre_approved_limit monthly_salary
       {| table := default_customers; sequence := 3 |} = (inr customer_id, file') ->
     customer_id = 3 + 1).
Proof.
  refine (reachable_ids_are_dense {| table := default_customers; sequence := 3 |} _).
  apply reachable_init. vm_compute; reflexivity.
Defined.

(** ** Listing the customers *)

Lemma get_all_customers_listed db :
  get_all_customers db = listed <$> merge_sort by_id (map_to_list db).
Proof.
  unfold get_all_customers. apply list_fmap_ext. intros _ [rowid row] _. reflexivity.
Qed.

#[local] Instance by_id_total : Total by_id.
Proof. intros a b. unfold by_id. lia. Qed.

#[local] Instance by_id_trans : Transitive by_id.
Proof. intros a b c. unfold by_id. lia. Qed.

Lemma strictly_sorted (l : list Z) :
  StronglySorted Z.le l -> NoDup l -> StronglySorted Z.lt l.
Proof.
  induction 1 as [|k l Hs IH Hall]; intros Hnd; [constructor|].
  apply NoDup_cons in Hnd as [Hk Hnd]. constructor; [apply IH, Hnd|].
  apply Forall_forall. intros j Hj. pose proof (proj1 (Forall_forall _ _) Hall j Hj).
  assert (j <> k) by (intros ->; contradiction). lia.
Qed.

Lemma listed_ids db :
  listed_id <$> get_all_customers db = (merge_sort by_id (map_to_list db)).*1.
Proof.
  rewrite get_all_customers_listed, <- list_fmap_compose. reflexivity.
Qed.

(** X8. [get_all_customers] lists the customers by strictly increasing id,
    each id once, and as many entries as the table has rows. *)
Theorem get_all_customers_sorted (db : database) :
  StronglySorted Z.lt (listed_id <$> get_all_customers db) /\
  NoDup (listed_id <$> get_all_customers db) /\
  length (get_all_customers db) = size db.
Proof.
  rewrite listed_ids.
  assert (Hnd : NoDup (merge_sort by_id (map_to_list db)).*1).
  { rewrite merge_sort_Permutation. apply NoDup_fst_map_to_list. }
  split; [|split; [exact Hnd|]].
  - apply strictly_sorted; [|exact Hnd].
    apply (StronglySorted_fmap fst by_id Z.le); [intros a b H; exact H|].
    apply StronglySorted_merge_sort; apply _.
  - rewrite get_all_customers_listed, length_fmap, merge_sort_Permutation.
    apply length_map_to_list.
Qed.

(** X9. [get_all_customers] and [get_customer_by_id] agree: an entry is
    listed exactly when fetching its id gives a customer with the same
    name, phone, address, credit score, limit and salary. *)
Theorem get_all_customers_complete (db : database) (e : listed_customer) :
  e ∈ get_all_customers db <->
  get_customer_by_id db (listed_id e) =
    Some {| id := listed_id e; name := listed_name e;
            kyc_details := {| phone := listed_phone e; address := listed_address e |};
            credit_score := listed_credit_score e;
            pre_approved_limit := listed_pre_approved_limit e;
            monthly_salary := listed_monthly_salary e |}.
Proof.
  rewrite get_all_customers_listed, list_elem_of_fmap. unfold get_customer_by_id. split.
  - intros ([k row] & -> & H). rewrite merge_sort_Permutation in H.
    apply elem_of_map_to_list in H. simpl. rewrite H. reflexivity.
  - destruct (db !! listed_id e) as [row|] eqn:E; [|discriminate].
    intros H. injection H as H1 H2 H3 H4 H5 H6. exists (listed_id e, row). split.
    + destruct e; unfold listed; simpl in *. congruence.
    + rewrite merge_sort_Permutation. apply elem_of_map_to_list. exact E.
Qed.

Lemma seqZ_sorted m n : StronglySorted Z.le (seqZ m n).
Proof.
  remember (Z.to_nat n) as len eqn:E. revert m n E.
  induction len as [|len IH]; intros m n E.
  - rewrite seqZ_nil by lia. constructor.
  - rewrite seqZ_cons by lia. constructor.
    + apply IH. lia.
    + apply Forall_forall. intros k Hk. apply elem_of_seqZ in Hk. lia.
Qed.

(** X19. In every file the application produces, [get_all_customers] lists
    the ids 1, 2, ..., n in this order, n being the number of customers. *)
Theorem listing_counts_up file :
  reachable file ->
  listed_id <$> get_all_customers (table file) = seqZ 1 (sequence file) /\
  Z.of_nat (length (get_all_customers (table file))) = sequence file.
Proof.
  intros Hr. destruct (reachable_dense _ Hr) as [H0 Hd].
  assert (E : listed_id <$> get_all_customers (table file) = seqZ 1 (sequence file)).
  { rewrite listed_ids.
    apply (StronglySorted_unique Z.le).
    - apply (StronglySorted_fmap fst by_id Z.le); [intros a b H; exact H|].
      apply StronglySorted_merge_sort; apply _.
    - apply seqZ_sorted.
    - apply NoDup_Permutation.
      + rewrite merge_sort_Permutation. apply NoDup_fst_map_to_list.
      + apply NoDup_seqZ.
      + intros k. rewrite merge_sort_Permutation, elem_of_seqZ, list_elem_of_fmap.
        split.
        * intros ([k' row] & -> & H). apply elem_of_map_to_list in H.
          assert (Hk : is_Some (table file !! k')) by eauto. apply Hd in Hk. simpl. lia.
        * intros Hk. assert (Hs : is_Some (table file !! k)) by (apply Hd; lia).
          destruct Hs as [row Hrow]. exists (k, row). split; [reflexivity|].
          apply elem_of_map_to_list, Hrow. }
  split; [exact E|].
  rewrite <- (length_fmap listed_id), E, length_seqZ. lia.
Qed.

Lemma listing_counts_up_default :
  listed_id <$> get_all_customers default_customers = seqZ 1 3 /\
  Z.of_nat (length (get_all_customers default_customers)) = 3.
Proof.
  refine (listing_counts_up {| table := default_customers; sequence := 3 |} _).
  apply reachable_init. vm_compute; reflexivity.
Defined.

(** * More on the engine and the orchestration *)

(** ** Every decision and the branch it comes from *)

Lemma underwriting_agent_origin format_float db customer_id loan_amount tenure_months d :
  underwriting_agent format_float db customer_id loan_amount tenure_months = Return (Some d) ->
  decision_origin format_float db customer_id loan_amount tenure_months d.
Proof.
  unfold underwriting_agent.
  destruct (get_customer_by_id db customer_id) as [c|] eqn:Hc; cbv zeta.
  2: { intros [= <-]. apply from_missing_customer; [assumption | reflexivity]. }
  destruct (Z.ltb_spec (credit_score c) 700) as [Hs|Hs].
  { intros [= <-]. eapply from_credit_floor; eauto. }
  destruct (num_gt loan_amount (2 * pre_approved_limit c)) eqn:E2.
  { intros [= <-]. eapply from_hard_ceiling; eauto. }
  destruct (num_le loan_amount (pre_approved_limit c)) eqn:E3.
  { intros [= <-]. eapply from_within_limit; eauto. }
  destruct (int_lt_num (pre_approved_limit c) loan_amount) eqn:E4; [|discriminate].
  destruct (num_le loan_amount (2 * pre_approved_limit c)) eqn:E5; [|discriminate].
  simpl andb. cbv iota. unfold stretch_tier.
  destruct (num_mul_float loan_amount 1.12) as [total|e] eqn:T; [|discriminate].
  rewrite bind_Return.
  destruct (float_div_int total tenure_months) as [emi|e] eqn:E; [|discriminate].
  rewrite bind_Return.
  destruct (num_mul_float (PyInt (monthly_salary c)) 0.5) as [max_emi|e] eqn:M; [|discriminate].
  rewrite bind_Return.
  destruct (PrimFloat.leb emi max_emi) eqn:L; intros [= <-];
    eapply from_stretch_tier; eauto.
Qed.

(** [H] states an entry of a literal dict that the dict does not have. *)
Ltac wrong_entry H := exfalso; vm_compute in H; discriminate H.

(** X10. What an approval carries: an approved decision holds the tenure
    that was requested and either the rate 10.5 with no EMI and no salary
    flag, or the rate 12.0 with an EMI and the salary flag set; a decision
    that is not approved has neither EMI nor flag. The status is error
    exactly when no customer has the id. *)
Theorem decision_anatomy format_float db customer_id loan_amount tenure_months d :
  underwriting_agent format_float db customer_id loan_amount tenure_months = Return (Some d) ->
  (d !! "status" = Some (VStr "error") <-> get_customer_by_id db customer_id = None) /\
  (d !! "status" = Some (VStr "approved") ->
   d !! "tenure_months" = Some (VInt tenure_months) /\
   (d !! "interest_rate" = Some (VFloat 10.5) /\ d !! "emi" = None /\
    d !! "salary_verification_required" = None \/
    d !! "interest_rate" = Some (VFloat 12.0) /\ (exists emi, d !! "emi" = Some (VFloat emi)) /\
    d !! "salary_verification_required" = Some (VBool true))) /\
  (d !! "status" <> Some (VStr "approved") ->
   d !! "emi" = None /\ d !! "salary_verification_required" = None) /\
  (exists reason, d !! "reason" = Some (VStr reason)).
Proof.
  intros H. apply underwriting_agent_origin in H.
  destruct H as [Hc ->|c Hc Hs ->|c Hc Hs Hgt ->|c Hc Hs Hgt Hle ->
                |c total emi max_emi Hc Hs Hlt Hle T E M [[L ->]|[L ->]]].
  all: split; [split; intros H;
                 first [ assumption | reflexivity | congruence | wrong_entry H ]|].
  all: split; [intros H; first [ wrong_entry H | idtac ]|].
  all: try (split; [reflexivity|]).
  all: try (left; repeat split; reflexivity).
  all: try (right; split; [reflexivity|split; [eexists; reflexivity|reflexivity]]).
  all: split; [intros H; first [ split; reflexivity | exfalso; apply H; reflexivity ]
              | eexists; reflexivity ].
Qed.

Lemma decision_anatomy_scenario_C :
  let d : gmap string pyval :=
    {[ "status" := VStr "approved";
       "reason" := VStr "Salary verification passed. EMI (Rs<float>) is within 50% of monthly salary (Rs120,000)";
       "interest_rate" := VFloat 12.0;
       "tenure_months" := VInt 60;
       "emi" := VFloat 8400.000000000002;
       "salary_verification_required" := VBool true ]} in
  (d !! "status" = Some (VStr "error") <-> get_customer_by_id default_customers 3 = None) /\
  (d !! "status" = Some (VStr "approved") ->
   d !! "tenure_months" = Some (VInt 60) /\
   (d !! "interest_rate" = Some (VFloat 10.5) /\ d !! "emi" = None /\
    d !! "salary_verification_required" = None \/
    d !! "interest_rate" = Some (VFloat 12.0) /\ (exists emi, d !! "emi" = Some (VFloat emi)) /\
    d !! "salary_verification_required" = Some (VBool true))) /\
  (d !! "status" <> Some (VStr "approved") ->
   d !! "emi" = None /\ d !! "salary_verification_required" = None) /\
  (exists reason, d !! "reason" = Some (VStr reason)).
Proof.
  refine (decision_anatomy sample_format default_customers 3 (PyInt 450000) 60 _ _).
  vm_compute; reflexivity.
Defined.

(** X11. Every approval is justified by the rules: an approved decision
    means that the customer exists, has a credit score of at least 700 and
    asked for no more than twice the limit; without an EMI the amount is
    within the limit, and with an EMI the amount is above the limit and the
    EMI, the amount times 1.12 over the tenure, is at most half the monthly
    salary. *)
Theorem approval_is_justified format_float db customer_id loan_amount tenure_months d :
  underwriting_agent format_float db customer_id loan_amount tenure_months = Return (Some d) ->
  d !! "status" = Some (VStr "approved") ->
  exists c,
    get_customer_by_id db customer_id = Some c /\
    700 <= credit_score c /\
    num_gt loan_amount (2 * pre_approved_limit c) = false /\
    num_le loan_amount (2 * pre_approved_limit c) = true /\
    (d !! "emi" = None /\ num_le loan_amount (pre_approved_limit c) = true \/
     exists total_amount emi max_emi,
       d !! "emi" = Some (VFloat emi) /\
       int_lt_num (pre_approved_limit c) loan_amount = true /\
       num_mul_float loan_amount 1.12 = Return total_amount /\
       float_div_int total_amount tenure_months = Return emi /\
       num_mul_float (PyInt (monthly_salary c)) 0.5 = Return max_emi /\
       PrimFloat.leb emi max_emi = true).
Proof.
  intros H Hst. apply underwriting_agent_origin in H.
  destruct H as [Hc ->|c Hc Hs ->|c Hc Hs Hgt ->|c Hc Hs Hgt Hle ->
                |c total emi max_emi Hc Hs Hlt Hle T E M [[L ->]|[L ->]]];
    try wrong_entry Hst.
  - exists c. repeat (split; [assumption|]). split.
    + apply (num_le_or_gt _ _ (pre_approved_limit c)); [|assumption].
      apply num_le_spec in Hle. destruct Hle; congruence.
    + left. split; [reflexivity | assumption].
  - exists c. repeat (split; [assumption|]). split; [apply num_le_not_gt, Hle|].
    split; [exact Hle|]. right. exists total, emi, max_emi.
    repeat split; try assumption; reflexivity.
Qed.

Lemma approval_is_justified_scenario_A :
  exists c,
    get_customer_by_id default_customers 1 = Some c /\
    700 <= credit_score c /\
    num_gt (PyInt 500000) (2 * pre_approved_limit c) = false /\
    num_le (PyInt 500000) (2 * pre_approved_limit c) = true /\
    (({[ "status" := VStr "approved";
         "reason" := VStr "Loan amount (Rs500,000) is within pre-approved limit (Rs500,000)";
         "interest_rate" := VFloat 10.5;
         "tenure_months" := VInt 60 ]} : gmap string pyval) !! "emi" = None /\
     num_le (PyInt 500000) (pre_approved_limit c) = true \/
     exists total_amount emi max_emi,
       ({[ "status" := VStr "approved";
           "reason" := VStr "Loan amount (Rs500,000) is within pre-approved limit (Rs500,000)";
           "interest_rate" := VFloat 10.5;
           "tenure_months" := VInt 60 ]} : gmap string pyval) !! "emi" = Some (VFloat emi) /\
       int_lt_num (pre_approved_limit c) (PyInt 500000) = true /\
       num_mul_float (PyInt 500000) 1.12 = Return total_amount /\
       float_div_int total_amount 60 = Return emi /\
       num_mul_float (PyInt (monthly_salary c)) 0.5 = Return max_emi /\
       PrimFloat.leb emi max_emi = true).
Proof.
  refine (approval_is_justified sample_format default_customers 1 (PyInt 500000) 60 _ _ _).
  - vm_compute; reflexivity.
  - reflexivity.
Defined.

(** ** The transcript, outcome by outcome *)

Section Transcripts.

Variable format_float : string -> float -> string.
Variable db : database.

(** For an amount that is not NaN and the default tenure, the engine
    returns a decision on every stored profile. *)
Lemma engine_returns customer_id c (loan_amount : float) :
  get_customer_by_id db customer_id = Some c ->
  stored_profile c ->
  num_compare (PyFloat loan_amount) 0 <> None ->
  exists d, underwriting_agent format_float db customer_id (PyFloat loan_amount)
              default_tenure_months = Return (Some d).
Proof.
  intros Hc Hst Hord.
  destruct (Z.lt_ge_cases (credit_score c) 700) as [Hs|Hs].
  { rewrite (rule_credit_floor format_float db customer_id c) by assumption. eauto. }
  destruct (num_gt (PyFloat loan_amount) (2 * pre_approved_limit c)) eqn:E2.
  { rewrite (rule_hard_ceiling format_float db customer_id c) by assumption. eauto. }
  destruct (num_le (PyFloat loan_amount) (pre_approved_limit c)) eqn:E3.
  { rewrite (rule_within_limit format_float db customer_id c) by assumption. eauto. }
  assert (E4 : int_lt_num (pre_approved_limit c) (PyFloat loan_amount) = true).
  { unfold int_lt_num. destruct (num_gt _ (pre_approved_limit c)) eqn:E; [reflexivity|].
    apply (num_le_or_gt _ _ _ Hord) in E. congruence. }
  pose proof (num_le_or_gt _ _ _ Hord E2) as E5.
  rewrite (rule_stretch_tier format_float db customer_id c) by assumption.
  destruct (stretch_tier_defined format_float (monthly_salary c) (PyFloat loan_amount)
              default_tenure_months loan_amount) as (_ & _ & E); try reflexivity.
  { discriminate. }
  { apply stored_salary_converts, Hst. }
  rewrite E. eauto.
Qed.

(** The transcript after a rejection, the same for every generator. *)
Lemma start_simulation_rejected customer_id c loan_amount d :
  get_customer_by_id db customer_id = Some c ->
  underwriting_agent format_float db customer_id (PyFloat loan_amount)
    default_tenure_months = Return (Some d) ->
  d !! "status" = Some (VStr "rejected") ->
  exists (narration : list string) (reason : string),
    d !! "reason" = Some (VStr reason) /\
    forall sanction_letter_generator,
      start_simulation format_float sanction_letter_generator db customer_id loan_amount =
      Return (narration ++
              [ "üîé Underwriting Agent: " +:+ reason;
                "---";
                "‚ùå Master Agent: Loan application has been REJECTED.";
                "üìå Master Agent: Reason - " +:+ reason;
                "ü§ñ Master Agent: Thank you for choosing Tata Capital. You may reapply after improving your eligibility." ]).
Proof.
  intros Hc Hd Hst.
  destruct (underwriting_agent_shape _ _ _ _ _ _ Hd)
    as [[(_ & _ & _ & _ & Hflag)|(Ha & _)] [reason Hreason]]; [|congruence].
  exists [ "ü§ñ Master Agent: Hello! Welcome to Tata Capital AI Loan Processing System.";
           "ü§ñ Master Agent: Processing loan application for Customer ID: " +:+ str_int customer_id;
           "ü§ñ Master Agent: Requested Loan Amount: Rs" +:+ format_float "," loan_amount;
           "---";
           "üîç Master Agent: Initiating KYC verification...";
           "‚úÖ Verification Agent: KYC verification successful!";
           "üìã Verification Agent: Customer Name - " +:+ name c;
           "üìã Verification Agent: Phone - " +:+ phone (kyc_details c);
           "üìã Verification Agent: Address - " +:+ address (kyc_details c);
           "---";
           "üìä Master Agent: Forwarding to Underwriting Agent for credit assessment...";
           "üí≥ Underwriting Agent: Credit Score - " +:+ str_int (credit_score c);
           "üí∞ Underwriting Agent: Pre-approved Limit - Rs" +:+ format_int_comma (pre_approved_limit c) ], reason.
  split; [exact Hreason|]. intros sanction_letter_generator.
  unfold start_simulation, start_simulation_with, verification_agent.
  rewrite Hc, Hd, bind_Return. unfold getitem. rewrite Hflag, Hreason, Hst.
  reflexivity.
Qed.

End Transcripts.

(** On every file the application produces, [start_simulation] returns a
    transcript for every id, with a row or without, and every amount that
    is not NaN. *)
Lemma start_simulation_returns format_float sanction_letter_generator file customer_id
    (loan_amount : float) :
  reachable file ->
  num_compare (PyFloat loan_amount) 0 <> None ->
  exists log,
    start_simulation format_float sanction_letter_generator (table file) customer_id
      loan_amount = Return log.
Proof.
  intros Hr Hord.
  destruct (get_customer_by_id (table file) customer_id) as [c|] eqn:Hc.
  - assert (Hst : stored_profile c).
    { apply reachable_fits in Hr. unfold get_customer_by_id in Hc.
      destruct (table file !! customer_id) as [row|] eqn:E; [|discriminate].
      injection Hc as <-. exact (Hr _ _ E). }
    destruct (engine_returns format_float (table file) customer_id c loan_amount Hc Hst Hord)
      as [d Hd].
    pose proof (underwriting_agent_origin _ _ _ _ _ _ Hd) as Ho.
    assert (Hcases : d !! "status" = Some (VStr "rejected") \/
                     d !! "status" = Some (VStr "approved")).
    { destruct Ho as [Hn ->|c' _ _ ->|c' _ _ _ ->|c' _ _ _ _ ->
                     |c' total emi max_emi _ _ _ _ _ _ _ [[_ ->]|[_ ->]]];
        first [ congruence | left; reflexivity | right; reflexivity ]. }
    destruct Hcases as [Hrej|Happ].
    + destruct (start_simulation_rejected format_float (table file) customer_id c
                  loan_amount d Hc Hd Hrej) as (narration & reason & _ & E).
      rewrite E. eauto.
    + destruct (start_simulation_approved format_float sanction_letter_generator
                  (table file) customer_id c loan_amount d Hc Hd Happ)
        as (narration & rate & tenure & _ & _ & E & _).
      rewrite E. eauto.
  - unfold start_simulation. unfold get_customer_by_id in Hc.
    destruct (table file !! customer_id) eqn:E; [discriminate|].
    rewrite (start_simulation_not_found format_float sanction_letter_generator
               (table file) _ customer_id loan_amount E). eauto.
Qed.

(** X12. On every file the application produces, a call of
    [start_simulation] answers with a transcript for every customer id that
    SQLite binds, known or not, and every amount that is not NaN: no
    exception escapes, whatever the generator does. *)
Theorem start_simulation_answers format_float sanction_letter_generator file customer_id
    (loan_amount : float) :
  reachable file ->
  sqlite_integer customer_id ->
  num_compare (PyFloat loan_amount) 0 <> None ->
  exists log,
    start_simulation_call format_float sanction_letter_generator (table file) customer_id
      loan_amount = Return log.
Proof.
  intros Hr Hb Hord. rewrite start_simulation_call_agrees.
  - apply start_simulation_returns; assumption.
  - exact Hb.
  - intros c Hc. apply reachable_fits in Hr. unfold get_customer_by_id in Hc.
    destruct (table file !! customer_id) as [row|] eqn:E; [|discriminate].
    injection Hc as <-. exact (Hr _ _ E).
Qed.

Lemma start_simulation_answers_infinite_amount :
  exists log,
    start_simulation_call sample_format failing_generator default_customers 1 infinity =
      Return log.
Proof.
  refine (start_simulation_answers sample_format failing_generator
            {| table := default_customers; sequence := 3 |} 1 infinity _ _ _).
  - apply reachable_init. vm_compute; reflexivity.
  - unfold sqlite_integer; lia.
  - vm_compute. discriminate.
Defined.

(** X13. On a NaN amount the engine returns no decision: for a customer
    with a credit score of at least 700 no rule matches, the engine falls
    off the end of the rule chain and returns [None] whatever the tenure,
    and [start_simulation] then raises AttributeError instead of answering;
    below 700 the credit floor still rejects and the rejection is
    narrated. *)
Theorem nan_amount_crashes format_float sanction_letter_generator (db : database)
    customer_id c (loan_amount : float) :
  get_customer_by_id db customer_id = Some c ->
  num_compare (PyFloat loan_amount) 0 = None ->
  (700 <= credit_score c ->
   (forall tenure_months,
      underwriting_agent format_float db customer_id (PyFloat loan_amount) tenure_months =
        Return None) /\
   start_simulation format_float sanction_letter_generator db customer_id loan_amount =
     Raise AttributeError) /\
  (credit_score c < 700 ->
   exists log,
     start_simulation format_float sanction_letter_generator db customer_id loan_amount =
       Return log /\
     In "‚ùå Master Agent: Loan application has been REJECTED." log).
Proof.
  intros Hc Hnan.
  assert (Hany : forall z, num_compare (PyFloat loan_amount) z = None).
  { intros z. destruct (num_compare (PyFloat loan_amount) z) eqn:E; [|reflexivity].
    exfalso. apply (num_compare_defined (PyFloat loan_amount) z 0); congruence. }
  split.
  - intros Hs.
    assert (E : forall tenure_months,
              underwriting_agent format_float db customer_id (PyFloat loan_amount)
                tenure_months = Return None).
    { intros tenure_months. unfold underwriting_agent. rewrite Hc. cbv zeta.
      apply Z.ltb_ge in Hs. rewrite Hs.
      unfold int_lt_num, num_gt, num_le. rewrite !Hany. reflexivity. }
    split; [exact E|].
    unfold start_simulation, start_simulation_with, verification_agent.
    rewrite Hc, E. reflexivity.
  - intros Hs.
    pose proof (rule_credit_floor format_float db customer_id c (PyFloat loan_amount)
                  default_tenure_months Hc Hs) as Hd.
    destruct (start_simulation_rejected format_float db customer_id c loan_amount _ Hc Hd
                eq_refl) as (narration & reason & _ & E).
    rewrite E. eexists. split; [reflexivity|].
    apply in_or_app. right. right. right. left. reflexivity.
Qed.

Lemma nan_amount_crashes_default :
  (700 <= 750 ->
   (forall tenure_months,
      underwriting_agent sample_format default_customers 1 (PyFloat nan) tenure_months =
        Return None) /\
   start_simulation sample_format sample_generator default_customers 1 nan =
     Raise AttributeError) /\
  (750 < 700 ->
   exists log,
     start_simulation sample_format sample_generator default_customers 1 nan = Return log /\
     In "‚ùå Master Agent: Loan application has been REJECTED." log).
Proof.
  refine (nan_amount_crashes sample_format sample_generator default_customers 1
            (Customer 1 "Rajesh Kumar"
               (Kyc "+91-9876543210" "123 MG Road, Bangalore, Karnataka - 560001")
               750 500000 80000) nan _ _).
  - reflexivity.
  - vm_compute; reflexivity.
Defined.



(** X15. When the engine approves and the generator returns a file name
    that is not empty, the transcript ends with the approval, the success
    line, a download link to exactly that file, and the congratulation; the
    salary-verification line is narrated exactly when the decision carries
    the salary flag. *)
Theorem approval_links_the_letter format_float sanction_letter_generator (db : database)
    customer_id c (loan_amount : float) d interest_rate tenure_months filename :
  get_customer_by_id db customer_id = Some c ->
  underwriting_agent format_float db customer_id (PyFloat loan_amount)
    default_tenure_months = Return (Some d) ->
  d !! "status" = Some (VStr "approved") ->
  d !! "interest_rate" = Some interest_rate ->
  d !! "tenure_months" = Some tenure_months ->
  sanction_letter_generator customer_id loan_amount interest_rate tenure_months "approved" =
    Some filename ->
  filename <> "" ->
  exists narration log,
    start_simulation format_float sanction_letter_generator db customer_id loan_amount =
      Return log /\
    log = narration ++
          [ "‚úÖ Master Agent: Loan application has been APPROVED! üéâ";
            "üìù Master Agent: Generating sanction letter...";
            "‚úÖ Sanction Letter Agent: PDF generated successfully!";
            "üìÑ Sanction Letter Agent: <a href='/download/" +:+ filename +:+ "' target='_blank' class='pdf-link'>Download Your Sanction Letter</a>";
            "---";
            "ü§ñ Master Agent: Congratulations! Your loan has been approved. Please download your sanction letter above." ] /\
    (In ("üìÑ Underwriting Agent: Salary verification required (Monthly Salary: Rs" +:+ format_int_comma (monthly_salary c) +:+ ")") log <->
     d !! "salary_verification_required" = Some (VBool true)).
Proof.
  intros Hc Hd Hst Hr Ht Hgen Hne.
  pose proof (underwriting_agent_origin _ _ _ _ _ _ Hd) as Ho.
  assert (Hreason : exists reason, d !! "reason" = Some (VStr reason)).
  { destruct (underwriting_agent_shape _ _ _ _ _ _ Hd) as [_ H]. exact H. }
  destruct Hreason as [reason Hreason].
  assert (Hfn : from_option (λ s, negb (String.eqb s "")) false (Some filename) = true).
  { simpl. apply negb_true_iff, String.eqb_neq, Hne. }
  unfold start_simulation, start_simulation_with, verification_agent.
  rewrite Hc, Hd, bind_Return. unfold getitem. rewrite Hreason, Hst, Hr, Ht.
  rewrite !bind_Return.
  change (eq_str (VStr "approved") "rejected") with false.
  change (eq_str (VStr "approved") "approved") with true.
  cbv iota. rewrite Hgen, Hfn.
  destruct Ho as [Hn ->|c' _ _ ->|c' _ _ _ ->|c' Hc' _ _ _ ->
                 |c' total emi max_emi Hc' _ _ _ _ _ _ [[_ ->]|[_ ->]]];
    try wrong_entry Hst.
  - eexists (_ :: _ :: _ :: _ :: _ :: _ :: _ :: _ :: _ :: _ :: _ :: _ :: _ :: _ :: _ :: []), _.
    split; [reflexivity|]. split; [reflexivity|]. split.
    + intros H. exfalso. no_such_line H.
    + intros H. wrong_entry H.
  - assert (c' = c) by congruence. subst c'.
    eexists (_ :: _ :: _ :: _ :: _ :: _ :: _ :: _ :: _ :: _ :: _ :: _ :: _ :: _ :: _ :: _ :: []), _.
    split; [reflexivity|]. split; [reflexivity|]. split.
    + intros _. reflexivity.
    + intros _. cbn. do 13 right. left. reflexivity.
Qed.

(** Scenario A with a generator that succeeds. *)
Lemma approval_links_the_letter_scenario_A :
  exists narration log,
    start_simulation sample_format sample_generator default_customers 1 500000 =
      Return log /\
    log = narration ++
          [ "‚úÖ Master Agent: Loan application has been APPROVED! üéâ";
            "üìù Master Agent: Generating sanction letter...";
            "‚úÖ Sanction Letter Agent: PDF generated successfully!";
            "üìÑ Sanction Letter Agent: <a href='/download/" +:+ "Sanction_Letter_1.pdf" +:+ "' target='_blank' class='pdf-link'>Download Your Sanction Letter</a>";
            "---";
            "ü§ñ Master Agent: Congratulations! Your loan has been approved. Please download your sanction letter above." ] /\
    (In ("üìÑ Underwriting Agent: Salary verification required (Monthly Salary: Rs" +:+ format_int_comma 80000 +:+ ")") log <->
     ({[ "status" := VStr "approved";
         "reason" := VStr "Loan amount (Rs<float>) is within pre-approved limit (Rs500,000)";
         "interest_rate" := VFloat 10.5;
         "tenure_months" := VInt 60 ]} : gmap string pyval)
       !! "salary_verification_required" = Some (VBool true)).
Proof.
  refine (approval_links_the_letter sample_format sample_generator default_customers 1
            (Customer 1 "Rajesh Kumar"
               (Kyc "+91-9876543210" "123 MG Road, Bangalore, Karnataka - 560001")
               750 500000 80000)
            500000 _ (VFloat 10.5) (VInt 60) "Sanction_Letter_1.pdf" _ _ _ _ _ _ _).
  - reflexivity.
  - vm_compute; reflexivity.
  - reflexivity.
  - reflexivity.
  - reflexivity.
  - reflexivity.
  - discriminate.
Defined.

(** ** The sanction letter *)

Section LetterFacts.

Variable format_float : string -> float -> string.
Variables inch width height : float.
Variable upper : string -> string.
Variables stamp today : string.

Implicit Types (db : database) (saved : bool) (loan_amount interest_rate : float).

(** The letter of a known customer with a tenure that divides. *)
Lemma letter_written saved db customer_id c loan_amount interest_rate tenure_months
    approval_status :
  get_customer_by_id db customer_id = Some c ->
  tenure_months <> 0 -> Z.abs tenure_months < DBL_OVERFLOW ->
  let emi := PrimFloat.div
               (PrimFloat.mul loan_amount
                  (PrimFloat.add 1 (PrimFloat.div interest_rate 100)))
               (round_int tenure_months) in
  exists calls x y,
    sanction_letter_generator format_float inch width height upper stamp today saved db
      customer_id loan_amount interest_rate tenure_months approval_status =
    (if saved
     then Some ("Sanction_Letter_" +:+ str_int customer_id +:+ "_" +:+ stamp +:+ ".pdf")
     else None,
     calls ++ [Save]) /\
    In (DrawString x y ("Estimated EMI: Rs " +:+ format_float ",.2f" emi)) calls /\
    ~ In Save calls.
Proof.
  intros Hc Ht0 Ht emi. unfold sanction_letter_generator. rewrite Hc. cbv zeta.
  rewrite (float_div_int_in_range _ _ Ht0 Ht). fold emi.
  destruct (String.eqb approval_status "approved"); destruct saved.
  all: eexists (_ :: _ :: _ :: _ :: _ :: _ :: _ :: _ :: _ :: _ :: _ :: _ :: _ :: _ :: _ :: _ ::
                _ :: _ :: _ :: _ :: _ :: _ :: _ :: _ :: _ :: _ :: _ :: _ :: _ :: []), _, _.
  all: split; [reflexivity|]; split;
         [cbn; do 21 right; left; reflexivity
         |intros H; cbn in H; repeat (destruct H as [H|H]; [discriminate H|]); exact H].
Qed.

(** X16. The letter generator returns a file name exactly
    when the customer exists, the tenure is an int other than zero that
    converts to a float, and saving succeeded; the name is then
    Sanction_Letter_<id>_<stamp>.pdf. The canvas is saved only when customer
    and tenure are fine: for an unknown customer nothing is drawn at all,
    and a zero or oversized tenure stops the letter before the EMI line. *)
Theorem letter_is_written_when saved db customer_id loan_amount interest_rate
    tenure_months approval_status :
  let outcome :=
    sanction_letter_generator format_float inch width height upper stamp today saved db
      customer_id loan_amount interest_rate tenure_months approval_status in
  let fine := is_Some (get_customer_by_id db customer_id) /\
              tenure_months <> 0 /\ Z.abs tenure_months < DBL_OVERFLOW in
  (forall filename,
     outcome.1 = Some filename <->
     fine /\ saved = true /\
     filename = "Sanction_Letter_" +:+ str_int customer_id +:+ "_" +:+ stamp +:+ ".pdf") /\
  (In Save outcome.2 <-> fine) /\
  (get_customer_by_id db customer_id = None -> outcome = (None, [])).
Proof.
  intros outcome fine. subst outcome fine.
  destruct (get_customer_by_id db customer_id) as [c|] eqn:Hc.
  - destruct (Z.eq_dec tenure_months 0) as [Ht0|Ht0];
      [|destruct (Z.lt_ge_cases (Z.abs tenure_months) DBL_OVERFLOW) as [Ht|Ht]].
    + unfold sanction_letter_generator; rewrite Hc; cbv zeta.
      assert (E : forall a, float_div_int a tenure_months = Raise ZeroDivisionError).
      { intros a. subst tenure_months. reflexivity. }
      rewrite E. simpl. split; [|split; [|discriminate]].
      * intros filename. split; [discriminate | intros ((_ & H & _) & _); contradiction].
      * split; [|intros (_ & H & _); contradiction].
        intros H. exfalso. cbn in H.
        repeat (destruct H as [H|H]; [discriminate H|]). exact H.
    + destruct (letter_written saved db customer_id c loan_amount interest_rate
                  tenure_months approval_status Hc Ht0 Ht) as (calls & x & y & E & _ & Hns).
      rewrite E; simpl. split; [|split; [|discriminate]].
      * intros filename. destruct saved; split.
        -- intros [= <-]. repeat split; eauto.
        -- intros (_ & _ & ->). reflexivity.
        -- discriminate.
        -- intros (_ & [=] & _).
      * split; [intros _; repeat split; eauto|].
        intros _. apply in_or_app. right. left. reflexivity.
    + unfold sanction_letter_generator; rewrite Hc; cbv zeta.
      assert (E : forall a, float_div_int a tenure_months = Raise OverflowError).
      { intros a. unfold float_div_int. rewrite (float_of_int_overflow _ Ht). reflexivity. }
      rewrite E. simpl. split; [|split; [|discriminate]].
      * intros filename. split; [discriminate | intros ((_ & _ & H) & _); lia].
      * split; [|intros (_ & _ & H); lia].
        intros H. exfalso. cbn in H.
        repeat (destruct H as [H|H]; [discriminate H|]). exact H.
  - unfold sanction_letter_generator. rewrite Hc. simpl.
    split; [|split; [|reflexivity]].
    + intros filename. split; [discriminate | intros (([? H] & _) & _); discriminate H].
    + split; [intros [] | intros ([? H] & _); discriminate H].
Qed.

End LetterFacts.

(** [1 + 12.0/100] is the float [1.12]. *)
Lemma surcharge_of_12_percent :
  PrimFloat.add 1 (PrimFloat.div 12 100) = 1.12%float.
Proof. reflexivity. Qed.

(** X17. The letter and the engine agree on the EMI of a stretch-tier
    approval: when the decision carries an EMI, the line "Estimated EMI" of
    the letter generated for the decision's rate and the same amount and
    tenure shows that very EMI (the rate of 12.0 makes the letter's factor
    1 + rate/100 equal to the engine's 1.12). *)
Theorem letter_shows_the_engine_emi format_float inch width height upper stamp today saved
    (db : database) customer_id (loan_amount : float) tenure_months approval_status d
    interest_rate emi :
  underwriting_agent format_float db customer_id (PyFloat loan_amount) tenure_months =
    Return (Some d) ->
  d !! "interest_rate" = Some (VFloat interest_rate) ->
  d !! "emi" = Some (VFloat emi) ->
  exists x y,
    In (DrawString x y ("Estimated EMI: Rs " +:+ format_float ",.2f" emi))
       (sanction_letter_generator format_float inch width height upper stamp today saved db
          customer_id loan_amount interest_rate tenure_months approval_status).2.
Proof.
  intros Hd Hr He. apply underwriting_agent_origin in Hd.
  destruct Hd as [Hc ->|c Hc Hs ->|c Hc Hs Hgt ->|c Hc Hs Hgt Hle ->
                 |c total emi' max_emi Hc Hs Hlt Hle T E M [[L ->]|[L ->]]];
    try wrong_entry He.
  assert (interest_rate = 12%float) by (vm_compute in Hr; congruence). subst interest_rate.
  assert (emi' = emi) by (vm_compute in He; congruence). subst emi'.
  injection T as <-.
  assert (Ht : tenure_months <> 0 /\ Z.abs tenure_months < DBL_OVERFLOW).
  { unfold float_div_int, float_of_int in E.
    destruct (Z.ltb_spec (Z.abs tenure_months) DBL_OVERFLOW); [|discriminate].
    rewrite bind_Return in E. destruct (Z.eqb_spec tenure_months 0); [discriminate|].
    split; assumption. }
  destruct Ht as [Ht0 Ht].
  destruct (letter_written format_float inch width height upper stamp today saved db
              customer_id c loan_amount 12 tenure_months approval_status Hc Ht0 Ht)
    as (calls & x & y & Eq & Hin & _).
  rewrite Eq. exists x, y. simpl. apply in_or_app. left.
  rewrite (float_div_int_in_range _ _ Ht0 Ht) in E. injection E as <-.
  rewrite surcharge_of_12_percent in Hin. exact Hin.
Qed.

Lemma letter_shows_the_engine_emi_scenario_C :
  exists x y,
    In (DrawString x y ("Estimated EMI: Rs " +:+ sample_format ",.2f" 8400.000000000002))
       (sanction_letter_generator sample_format 72 612 792 (λ s, s) "20260101_120000"
          "01 January, 2026" true default_customers 3 450000 12 60 "approved").2.
Proof.
  refine (letter_shows_the_engine_emi sample_format 72 612 792 (λ s, s) "20260101_120000"
            "01 January, 2026" true default_customers 3 450000 60 "approved"
            {[ "status" := VStr "approved";
               "reason" := VStr "Salary verification passed. EMI (Rs<float>) is within 50% of monthly salary (Rs120,000)";
               "interest_rate" := VFloat 12.0;
               "tenure_months" := VInt 60;
               "emi" := VFloat 8400.000000000002;
               "salary_verification_required" := VBool true ]}
            12 8400.000000000002 _ _ _).
  - vm_compute; reflexivity.
  - reflexivity.
  - reflexivity.
Defined.

(** X18. With the real generator in place, an approval always gets its
    letter unless saving the file fails: for every customer and amount the
    engine approves, [start_simulation] ends with the download link to
    Sanction_Letter_<id>_<stamp>.pdf when the file is saved, and with the
    generator's error line when it is not. *)
Theorem approval_gets_its_letter format_float inch width height upper other_arguments
    stamp today saved (db : database) customer_id c (loan_amount : float) d :
  get_customer_by_id db customer_id = Some c ->
  underwriting_agent format_float db customer_id (PyFloat loan_amount)
    default_tenure_months = Return (Some d) ->
  d !! "status" = Some (VStr "approved") ->
  exists narration,
    start_simulation format_float
      (letter_step format_float inch width height upper other_arguments stamp today saved db)
      db customer_id loan_amount =
    Return (narration ++
            [ "‚úÖ Master Agent: Loan application has been APPROVED! üéâ";
              "üìù Master Agent: Generating sanction letter..." ] ++
            if saved then
              [ "‚úÖ Sanction Letter Agent: PDF generated successfully!";
                "üìÑ Sanction Letter Agent: <a href='/download/" +:+
                  ("Sanction_Letter_" +:+ str_int customer_id +:+ "_" +:+ stamp +:+ ".pdf") +:+
                  "' target='_blank' class='pdf-link'>Download Your Sanction Letter</a>";
                "---";
                "ü§ñ Master Agent: Congratulations! Your loan has been approved. Please download your sanction letter above." ]
            else
              [ "‚ùå Sanction Letter Agent: Error generating PDF. Please contact support." ]).
Proof.
  intros Hc Hd Hst.
  destruct (start_simulation_approved format_float
              (letter_step format_float inch width height upper other_arguments stamp today
                 saved db)
              db customer_id c loan_amount d Hc Hd Hst)
    as (narration & rate & tenure & Hr & Ht & E & _).
  exists narration. rewrite E. cbv zeta.
  assert (Hrt : exists r, rate = VFloat r /\ tenure = VInt default_tenure_months).
  { pose proof (underwriting_agent_origin _ _ _ _ _ _ Hd) as Ho.
    destruct Ho as [Hn ->|c' _ _ ->|c' _ _ _ ->|c' _ _ _ _ ->
                   |c' total emi max_emi _ _ _ _ _ _ _ [[_ ->]|[_ ->]]];
      try wrong_entry Hst.
    all: vm_compute in Hr, Ht; injection Hr as <-; injection Ht as <-; eauto. }
  destruct Hrt as (r & -> & ->). unfold letter_step.
  destruct (letter_written format_float inch width height upper stamp today saved db
              customer_id c loan_amount r default_tenure_months "approved" Hc)
    as (calls & x & y & Eq & _); [discriminate | reflexivity |].
  rewrite Eq. destruct saved; reflexivity.
Qed.

Lemma approval_gets_its_letter_scenario_A :
  exists narration,
    start_simulation sample_format
      (letter_step sample_format 72 612 792 (λ s, s) (λ _ _ _ _ _, None)
         "20260101_120000" "01 January, 2026" true default_customers)
      default_customers 1 500000 =
    Return (narration ++
            [ "‚úÖ Master Agent: Loan application has been APPROVED! üéâ";
              "üìù Master Agent: Generating sanction letter..." ] ++
            [ "‚úÖ Sanction Letter Agent: PDF generated successfully!";
              "üìÑ Sanction Letter Agent: <a href='/download/" +:+
                ("Sanction_Letter_" +:+ str_int 1 +:+ "_" +:+ "20260101_120000" +:+ ".pdf") +:+
                "' target='_blank' class='pdf-link'>Download Your Sanction Letter</a>";
              "---";
              "ü§ñ Master Agent: Congratulations! Your loan has been approved. Please download your sanction letter above." ]).
Proof.
  refine (approval_gets_its_letter sample_format 72 612 792 (λ s, s) (λ _ _ _ _ _, None)
            "20260101_120000" "01 January, 2026" true default_customers 1
            (Customer 1 "Rajesh Kumar"
               (Kyc "+91-9876543210" "123 MG Road, Bangalore, Karnataka - 560001")
               750 500000 80000)
            500000
            {[ "status" := VStr "approved";
               "reason" := VStr "Loan amount (Rs<float>) is within pre-approved limit (Rs500,000)";
               "interest_rate" := VFloat 10.5;
               "tenure_months" := VInt 60 ]} _ _ _).
  - reflexivity.
  - vm_compute; reflexivity.
  - reflexivity.
Defined.
